(** * DataReaderTask: the P1 meter acquisition worker of the Zap firmware

    A shallow embedding of [src/data/data_reader_task.cpp].  The C++ object
    and the services it calls (FreeRTOS queues and tasks, the P1 meter driver,
    the [Debug] counters, the log macros, [millis()]) are modelled as one
    [World] record that the member functions pass along in a small state
    monad.  The member functions keep their names; the constructor is
    [DataReaderTask_new], the destructor [DataReaderTask_delete]. *)

From stdpp Require Import base numbers option list gmap strings.
From Stdlib Require Import ZArith Strings.Byte Lia.

Local Open Scope Z_scope.

(** ** FreeRTOS queues

    A queue created by [xQueueCreate(uxLength, itemSize)] holds at most
    [uxLength] items, copied in and out by value.  Only the three calls made
    by [enqueueData] are modelled, as seen by one task while no other task
    touches the queue. *)
Module Queue.
Section Queue.
Context {A : Type}.

Record t := mk { uxLength : nat; items : list A }.

Definition uxMessagesWaiting (q : t) : nat := length (items q).

(** [uxQueueSpacesAvailable(q)]: free slots. *)
Definition uxQueueSpacesAvailable (q : t) : nat :=
  (uxLength q - uxMessagesWaiting q)%nat.

(** [xQueueReceive(q, &buf, 0)]: takes the item at the head; with a zero
    block time an empty queue makes the call fail at once. *)
Definition xQueueReceive (q : t) : option A * t :=
  match items q with
  | [] => (None, q)
  | x :: rest => (Some x, mk (uxLength q) rest)
  end.

(** [xQueueSendToBack(q, &item, ticks)]: appends at the tail when a slot is
    free ([pdPASS]); a queue that stays full for the whole block time makes
    the call fail ([errQUEUE_FULL]) and is left as it was. *)
Definition xQueueSendToBack (q : t) (x : A) : bool * t :=
  if bool_decide (uxMessagesWaiting q < uxLength q)%nat
  then (true, mk (uxLength q) (items q ++ [x]))
  else (false, q).

(** The queue never holds more than it was created for. *)
Definition wf (q : t) : Prop := (length (items q) <= uxLength q)%nat.
End Queue.
Arguments t : clear implicits.
End Queue.

Definition QueueHandle_t := nat.
Definition TaskHandle_t := nat.

(** ** Frames

    [IFrameData] is an interface with three accessors; a frame is the record
    of its three methods.  The enumeration [IFrameData::Type] is declared in a
    header outside this file: the three enumerators the dispatch names are
    kept, and every other enumerator (the ones that reach [default:]) is an
    [FRAME_TYPE_other] with its numeric tag. *)
Inductive FrameType :=
| FRAME_TYPE_HDLC
| FRAME_TYPE_ASCII
| FRAME_TYPE_MBUS
| FRAME_TYPE_other (tag : Z).

Record IFrameData := {
  getFrameTypeId : FrameType;
  getFrameSize : nat;
  getFrameByte : nat -> byte
}.

(** The bytes of a frame, first to last. *)
Definition frameBytes (frame : IFrameData) : list byte :=
  map (getFrameByte frame) (seq 0 (getFrameSize frame)).

(** ** Diagnostics

    Modelled from the spec: the [Debug] class is declared outside this file.
    The spec gives it counters for successful and failed frames, a snapshot of
    the most recent faulty frame's raw bytes and the active configuration
    index, none of which affect control flow. *)
Module Diag.
Record t := mk {
  frames : N;
  failedFrames : N;
  faultyFrameData : list byte;
  p1MeterConfigIndex : Z
}.

Definition init : t := mk 0 0 [] 0.

Definition addFrame (d : t) : t :=
  mk (frames d + 1) (failedFrames d) (faultyFrameData d) (p1MeterConfigIndex d).
Definition addFailedFrame (d : t) : t :=
  mk (frames d) (failedFrames d + 1) (faultyFrameData d) (p1MeterConfigIndex d).
Definition clearFaultyFrameData (d : t) : t :=
  mk (frames d) (failedFrames d) [] (p1MeterConfigIndex d).
Definition addFaultyFrameData (b : byte) (d : t) : t :=
  mk (frames d) (failedFrames d) (faultyFrameData d ++ [b]) (p1MeterConfigIndex d).
Definition setP1MeterConfigIndex (ix : Z) (d : t) : t :=
  mk (frames d) (failedFrames d) (faultyFrameData d) ix.
End Diag.

(** ** Calls that leave the object

    The log macros and the calls into the meter driver, the packaging step and
    the scheduler are recorded, newest first, in the [trace] of the world. *)
Inductive LogMacro := LOG_TE | LOG_TW | LOG_TI | LOG_TD.

(** A [DataPackage]: the payload buffer and the time it was accepted. *)
Record DataPackage := { data : string; timestamp : Z }.

(** ** External collaborators

    What [data_reader_task.cpp] calls but does not define.  [P1Data] (the
    decoded reading) and the link configuration type come from headers outside
    this file and nothing here looks inside them.

    - A decoder's [decodeBuffer(frame, p1data)] returns [true] after filling
      [p1data]: [Some p1data]; or [false]: [None].
    - [createP1JWTPayload(p1data, buf, MAX_DATA_SIZE)] gives the value that
      [enqueueData] tests in its [if] and the characters left in [buf].
    - [p1data.setTimeStamp()] gives the stamped reading.
    - The meter driver has a fixed table of configurations,
      [getNumConfigs()] and [getConfig(ix)], and [begin(cfg)] reports whether
      the link came up. *)
Class Collaborators := {
  P1Data : Type;
  P1MeterConfig : Type;
  DLMSDecoder_decodeBuffer : IFrameData -> option P1Data;
  AsciiDecoder_decodeBuffer : IFrameData -> option P1Data;
  P1Data_setTimeStamp : P1Data -> P1Data;
  createP1JWTPayload : P1Data -> bool * string;
  P1Meter_getNumConfigs : Z;
  P1Meter_getConfig : Z -> P1MeterConfig;
  P1Meter_begin_ok : P1MeterConfig -> bool
}.

Section DataReaderTask.
Context `{Collaborators}.

Inductive Event :=
| Log (macro : LogMacro) (format : string)
| P1Meter_setFrameCallback
| P1Meter_begin (cfg : P1MeterConfig) (ok : bool)
| P1Meter_update
| CreateP1JWTPayload (p1data : P1Data)
| XTaskCreatePinnedToCore (name : string) (created : TaskHandle_t)
| VTaskDelay (ms : Z)
| VTaskDelete (task : option TaskHandle_t).

(** The [p1Meter] member: whether a frame callback is registered and the
    configuration of the last [begin].  Modelled from the spec: the class is
    declared outside this file; the spec lists [configure(candidate) -> bool],
    [getCandidate(index)], [getCandidateCount()], [poll()] and
    [setFrameCallback(fn)]. *)
Record P1Meter := {
  frameCallback : bool;
  activeConfig : option P1MeterConfig
}.

(** The fields of the C++ object.  [lastReadTime] holds a value of
    [millis()], an unsigned 32-bit count of milliseconds; [lastDecodedData]
    is [None] until the first reading is stored. *)
Record DataReaderTask := {
  taskHandle : option TaskHandle_t;
  stackSize : Z;
  priority : Z;
  shouldRun : bool;
  p1DataQueue : option QueueHandle_t;
  readInterval : Z;
  lastReadTime : Z;
  baudRateIx : Z;
  lastDecodedData : option P1Data;
  p1Meter : P1Meter
}.

(** Everything a member function can read or change.  [clock] lists the
    values that successive calls of [millis()] return (before the 32-bit
    wrap), [clock_reads] counts the calls made so far. *)
Record World := {
  self : DataReaderTask;
  debug : Diag.t;
  queues : gmap QueueHandle_t (Queue.t DataPackage);
  tasks : list TaskHandle_t;
  clock : nat -> Z;
  clock_reads : nat;
  trace : list Event
}.

(** *** Field updates *)

Definition with_taskHandle (v : option TaskHandle_t) (t : DataReaderTask) :=
  {| taskHandle := v; stackSize := stackSize t; priority := priority t;
     shouldRun := shouldRun t; p1DataQueue := p1DataQueue t;
     readInterval := readInterval t; lastReadTime := lastReadTime t;
     baudRateIx := baudRateIx t; lastDecodedData := lastDecodedData t;
     p1Meter := p1Meter t |}.
Definition with_shouldRun (v : bool) (t : DataReaderTask) :=
  {| taskHandle := taskHandle t; stackSize := stackSize t; priority := priority t;
     shouldRun := v; p1DataQueue := p1DataQueue t;
     readInterval := readInterval t; lastReadTime := lastReadTime t;
     baudRateIx := baudRateIx t; lastDecodedData := lastDecodedData t;
     p1Meter := p1Meter t |}.
Definition with_p1DataQueue (v : option QueueHandle_t) (t : DataReaderTask) :=
  {| taskHandle := taskHandle t; stackSize := stackSize t; priority := priority t;
     shouldRun := shouldRun t; p1DataQueue := v;
     readInterval := readInterval t; lastReadTime := lastReadTime t;
     baudRateIx := baudRateIx t; lastDecodedData := lastDecodedData t;
     p1Meter := p1Meter t |}.
Definition with_readInterval (v : Z) (t : DataReaderTask) :=
  {| taskHandle := taskHandle t; stackSize := stackSize t; priority := priority t;
     shouldRun := shouldRun t; p1DataQueue := p1DataQueue t;
     readInterval := v; lastReadTime := lastReadTime t;
     baudRateIx := baudRateIx t; lastDecodedData := lastDecodedData t;
     p1Meter := p1Meter t |}.
Definition with_lastReadTime (v : Z) (t : DataReaderTask) :=
  {| taskHandle := taskHandle t; stackSize := stackSize t; priority := priority t;
     shouldRun := shouldRun t; p1DataQueue := p1DataQueue t;
     readInterval := readInterval t; lastReadTime := v;
     baudRateIx := baudRateIx t; lastDecodedData := lastDecodedData t;
     p1Meter := p1Meter t |}.
Definition with_baudRateIx (v : Z) (t : DataReaderTask) :=
  {| taskHandle := taskHandle t; stackSize := stackSize t; priority := priority t;
     shouldRun := shouldRun t; p1DataQueue := p1DataQueue t;
     readInterval := readInterval t; lastReadTime := lastReadTime t;
     baudRateIx := v; lastDecodedData := lastDecodedData t;
     p1Meter := p1Meter t |}.
Definition with_lastDecodedData (v : option P1Data) (t : DataReaderTask) :=
  {| taskHandle := taskHandle t; stackSize := stackSize t; priority := priority t;
     shouldRun := shouldRun t; p1DataQueue := p1DataQueue t;
     readInterval := readInterval t; lastReadTime := lastReadTime t;
     baudRateIx := baudRateIx t; lastDecodedData := v;
     p1Meter := p1Meter t |}.
Definition with_p1Meter (v : P1Meter) (t : DataReaderTask) :=
  {| taskHandle := taskHandle t; stackSize := stackSize t; priority := priority t;
     shouldRun := shouldRun t; p1DataQueue := p1DataQueue t;
     readInterval := readInterval t; lastReadTime := lastReadTime t;
     baudRateIx := baudRateIx t; lastDecodedData := lastDecodedData t;
     p1Meter := v |}.

Definition with_self (f : DataReaderTask -> DataReaderTask) (w : World) :=
  {| self := f (self w); debug := debug w; queues := queues w; tasks := tasks w;
     clock := clock w; clock_reads := clock_reads w; trace := trace w |}.
Definition with_debug (f : Diag.t -> Diag.t) (w : World) :=
  {| self := self w; debug := f (debug w); queues := queues w; tasks := tasks w;
     clock := clock w; clock_reads := clock_reads w; trace := trace w |}.
Definition with_queues (qs : gmap QueueHandle_t (Queue.t DataPackage)) (w : World) :=
  {| self := self w; debug := debug w; queues := qs; tasks := tasks w;
     clock := clock w; clock_reads := clock_reads w; trace := trace w |}.
Definition with_tasks (ts : list TaskHandle_t) (w : World) :=
  {| self := self w; debug := debug w; queues := queues w; tasks := ts;
     clock := clock w; clock_reads := clock_reads w; trace := trace w |}.
Definition with_clock_reads (n : nat) (w : World) :=
  {| self := self w; debug := debug w; queues := queues w; tasks := tasks w;
     clock := clock w; clock_reads := n; trace := trace w |}.
Definition with_event (e : Event) (w : World) :=
  {| self := self w; debug := debug w; queues := queues w; tasks := tasks w;
     clock := clock w; clock_reads := clock_reads w; trace := e :: trace w |}.

(** *** The state monad of the member functions *)

Definition M (A : Type) : Type := World -> A * World.

Definition ret {A} (x : A) : M A := fun w => (x, w).
Definition bind {A B} (c : M A) (k : A -> M B) : M B :=
  fun w => let (x, w') := c w in k x w'.
Definition gets {A} (f : DataReaderTask -> A) : M A := fun w => (f (self w), w).
Definition modify (f : World -> World) : M unit := fun w => (tt, f w).
Definition assign (f : DataReaderTask -> DataReaderTask) : M unit :=
  modify (with_self f).
Definition when (b : bool) (c : M unit) : M unit := if b then c else ret tt.

(** The world a computation leaves behind. *)
Definition exec {A} (c : M A) (w : World) : World := snd (c w).

Declare Scope M_scope.
Delimit Scope M_scope with M.
Bind Scope M_scope with M.
Notation "x <- c ;; k" := (bind c (fun x => k))
  (at level 100, c at next level, k at level 200, right associativity) : M_scope.
Notation "c ;; k" := (bind c (fun _ => k))
  (at level 100, k at level 200, right associativity) : M_scope.
Local Open Scope M_scope.

(** *** Services *)

(** [millis()]: the next clock value, wrapped to 32 bits. *)
Definition millis : M Z :=
  fun w => (clock w (clock_reads w) mod 2 ^ 32,
            with_clock_reads (S (clock_reads w)) w).

Definition emit (e : Event) : M unit := modify (with_event e).
Definition LOG (macro : LogMacro) (format : string) : M unit :=
  emit (Log macro format).

Definition Debug_addFrame : M unit := modify (with_debug Diag.addFrame).
Definition Debug_addFailedFrame : M unit := modify (with_debug Diag.addFailedFrame).
Definition Debug_clearFaultyFrameData : M unit :=
  modify (with_debug Diag.clearFaultyFrameData).
Definition Debug_addFaultyFrameData (b : byte) : M unit :=
  modify (with_debug (Diag.addFaultyFrameData b)).
Definition Debug_setP1MeterConfigIndex (ix : Z) : M unit :=
  modify (with_debug (Diag.setP1MeterConfigIndex ix)).

(** The queue calls, through a handle.  A handle that names no queue of the
    store is outside the contract of FreeRTOS; the calls are written as
    failing there (no space, nothing received, nothing sent). *)
Definition uxQueueSpacesAvailable (h : QueueHandle_t) : M nat :=
  fun w => (from_option Queue.uxQueueSpacesAvailable 0%nat (queues w !! h), w).

Definition xQueueReceive (h : QueueHandle_t) : M (option DataPackage) :=
  fun w =>
    match queues w !! h with
    | Some q => let (r, q') := Queue.xQueueReceive q in
                (r, with_queues (<[h := q']> (queues w)) w)
    | None => (None, w)
    end.

Definition xQueueSendToBack (h : QueueHandle_t) (package : DataPackage) : M bool :=
  fun w =>
    match queues w !! h with
    | Some q => let (r, q') := Queue.xQueueSendToBack q package in
                (r, with_queues (<[h := q']> (queues w)) w)
    | None => (false, w)
    end.

(** [xTaskCreatePinnedToCore(..., &taskHandle, 0)]: a new task under a
    handle no live task has; the handle is written to [taskHandle]. *)
Definition fresh_task (ts : list TaskHandle_t) : TaskHandle_t :=
  S (foldr Nat.max 0%nat ts).

Definition xTaskCreatePinnedToCore (name : string) : M unit :=
  fun w => let h := fresh_task (tasks w) in
    (tt, with_event (XTaskCreatePinnedToCore name h)
           (with_tasks (h :: tasks w) (with_self (with_taskHandle (Some h)) w))).

Definition vTaskDelay (ms : Z) : M unit := emit (VTaskDelay ms).

(** [vTaskDelete(h)]; [vTaskDelete(NULL)] is the calling task deleting
    itself, which leaves the handles held elsewhere as they are. *)
Definition vTaskDelete (h : option TaskHandle_t) : M unit :=
  fun w => (tt, with_event (VTaskDelete h)
                  (with_tasks (from_option (fun t => filter (fun t' => t' <> t) (tasks w))
                                           (tasks w) h) w)).

Definition p1Meter_setFrameCallback : M unit :=
  assign (fun t => with_p1Meter {| frameCallback := true;
                                   activeConfig := activeConfig (p1Meter t) |} t) ;;
  emit P1Meter_setFrameCallback.

(** [p1Meter.begin(cfg)]: the driver is set to [cfg], whether or not the
    link came up. *)
Definition p1Meter_begin (cfg : P1MeterConfig) : M bool :=
  let ok := P1Meter_begin_ok cfg in
  assign (fun t => with_p1Meter {| frameCallback := frameCallback (p1Meter t);
                                   activeConfig := Some cfg |} t) ;;
  emit (P1Meter_begin cfg ok) ;;
  ret ok.

(** *** The member functions *)

(** The constructor's initialiser list. *)
Definition DataReaderTask_new (stackSize priority : Z) : DataReaderTask :=
  {| taskHandle := None; stackSize := stackSize; priority := priority;
     shouldRun := false; p1DataQueue := None; readInterval := 10000;
     lastReadTime := 0; baudRateIx := 0; lastDecodedData := None;
     p1Meter := {| frameCallback := false; activeConfig := None |} |}.

Definition setInterval (interval : Z) : M unit :=
  assign (with_readInterval interval).

(** Lines 82 to 95 of [enqueueData]: make room, then send. *)
Definition enqueuePackage (h : QueueHandle_t) (package : DataPackage) : M unit :=
  spaces <- uxQueueSpacesAvailable h ;;
  when (Nat.eqb spaces 0)
    (xQueueReceive h ;;
     LOG LOG_TW "Queue full, removed oldest item") ;;
  result <- xQueueSendToBack h package ;;
  if result
  then LOG LOG_TD "Added data package to queue"
  else LOG LOG_TE "Failed to add data package to queue".

Definition enqueueData (p1data : P1Data) : M unit :=
  q <- gets p1DataQueue ;;
  match q with
  | None => ret tt
  | Some h =>
      emit (CreateP1JWTPayload p1data) ;;
      let (failed, buf) := createP1JWTPayload p1data in
      if failed
      then LOG LOG_TE "Failed to create JWT"
      else
        now <- millis ;;
        enqueuePackage h {| data := buf; timestamp := now |}
  end.

(** The [switch] of [handleFrame]: the reading when [isDecoded] ends up
    [true]. *)
Definition decodeFrame (frame : IFrameData) : M (option P1Data) :=
  match getFrameTypeId frame with
  | FRAME_TYPE_HDLC =>
      LOG LOG_TD "DLMS frame detected" ;;
      match DLMSDecoder_decodeBuffer frame with
      | Some p1data => LOG LOG_TI "DLMS data decoded successfully" ;; ret (Some p1data)
      | None => ret None
      end
  | FRAME_TYPE_ASCII =>
      LOG LOG_TD "ASCII frame detected" ;;
      match AsciiDecoder_decodeBuffer frame with
      | Some p1data => LOG LOG_TI "ASCII data decoded successfully" ;; ret (Some p1data)
      | None => ret None
      end
  | FRAME_TYPE_MBUS =>
      LOG LOG_TD "M-Bus frame detected" ;;
      ret None
  | FRAME_TYPE_other _ =>
      LOG LOG_TW "Unknown frame type" ;;
      ret None
  end.

(** The [for] loop that copies a frame, byte by byte, from index [i] on. *)
Fixpoint copyFaultyFrame (frame : IFrameData) (i count : nat) : M unit :=
  match count with
  | O => ret tt
  | S count' =>
      Debug_addFaultyFrameData (getFrameByte frame i) ;;
      copyFaultyFrame frame (S i) count'
  end.

Definition handleFrame (frame : IFrameData) : M unit :=
  let frameSize := getFrameSize frame in
  decoded <- decodeFrame frame ;;
  LOG LOG_TI "Frame decoded %s" ;;
  match decoded with
  | Some p1data =>
      Debug_addFrame ;;
      now <- millis ;;
      assign (with_lastReadTime now) ;;
      let p1data := P1Data_setTimeStamp p1data in
      enqueueData p1data ;;
      assign (with_lastDecodedData (Some p1data))
  | None =>
      Debug_addFailedFrame ;;
      Debug_clearFaultyFrameData ;;
      copyFaultyFrame frame 0 frameSize ;;
      LOG LOG_TE "Failed to decode P1 data frame"
  end.

Definition begin (dataQueue : option QueueHandle_t) : M unit :=
  running <- gets taskHandle ;;
  match running with
  | Some _ => ret tt
  | None =>
      p1Meter_setFrameCallback ;;
      ix <- gets baudRateIx ;;
      ok <- p1Meter_begin (P1Meter_getConfig ix) ;;
      when (negb ok) (LOG LOG_TE "Failed to initialize P1 meter") ;;
      LOG LOG_TI "P1 meter initialized with baud rate %d" ;;
      assign (with_p1DataQueue dataQueue) ;;
      assign (with_shouldRun true) ;;
      xTaskCreatePinnedToCore "DataReaderTask" ;;
      LOG LOG_TI "DataReaderTask started with stack size %d and priority %d"
  end.

Definition stop : M unit :=
  running <- gets taskHandle ;;
  match running with
  | None => ret tt
  | Some _ =>
      assign (with_shouldRun false) ;;
      vTaskDelay 100 ;;
      h <- gets taskHandle ;;
      match h with
      | Some t => vTaskDelete (Some t) ;; assign (with_taskHandle None)
      | None => ret tt
      end
  end.

(** The destructor. *)
Definition DataReaderTask_delete : M unit := stop.

(** [%] on two C integers truncates towards zero: [Z.rem]. *)
Definition rotateP1MeterBaudRate : M unit :=
  when (1 <? P1Meter_getNumConfigs)
    (ix <- gets baudRateIx ;;
     let ix' := Z.rem (ix + 1) P1Meter_getNumConfigs in
     assign (with_baudRateIx ix') ;;
     Debug_setP1MeterConfigIndex ix' ;;
     LOG LOG_TD "Rotating P1 meter condfig to %d" ;;
     ok <- p1Meter_begin (P1Meter_getConfig ix') ;;
     when (negb ok) (LOG LOG_TE "Failed to reinitialize P1 meter with config ix: %d")) ;;
  now <- millis ;;
  assign (with_lastReadTime now).

(** Lines 187 to 189 of [taskFunction]: the difference of two unsigned
    32-bit values, taken modulo 2^32, against thirty seconds. *)
Definition stallCheck : M unit :=
  now <- millis ;;
  last <- gets lastReadTime ;;
  when (30 * 1000 <? (now - last) mod 2 ^ 32) rotateP1MeterBaudRate.




(** *** Vocabulary of the statements *)

(** Pushing several packages, one [enqueuePackage] after the other. *)
Fixpoint enqueuePackages (h : QueueHandle_t) (packages : list DataPackage) : M unit :=
  match packages with
  | [] => ret tt
  | package :: later => enqueuePackage h package ;; enqueuePackages h later
  end.

(** The value the next [millis()] returns. *)
Definition nextMillis (w : World) : Z := clock w (clock_reads w) mod 2 ^ 32.

(** Milliseconds since [lastReadTime], as the stall check of the next turn
    computes them. *)
Definition elapsed (w : World) : Z :=
  (nextMillis w - lastReadTime (self w)) mod 2 ^ 32.

(** The world after a stall check that read the clock and did nothing
    else. *)
Definition clockRead (w : World) : World := with_clock_reads (S (clock_reads w)) w.

(** The world after a stall check that read the clock and went on to
    [rotateP1MeterBaudRate]. *)
Definition rotated (w : World) : World := exec rotateP1MeterBaudRate (clockRead w).

Definition isLog (e : Event) : Prop :=
  match e with Log _ _ => True | _ => False end.

(** The stall check as the spec words it for [setStallWindow]: the
    threshold is the configured duration, [readInterval].  Not in the
    source; compared with [stallCheck] below. *)
Definition stallCheck_configured : M unit :=
  now <- millis ;;
  last <- gets lastReadTime ;;
  window <- gets readInterval ;;
  when (window <? (now - last) mod 2 ^ 32) rotateP1MeterBaudRate.

(** Every queue of the store holds no more than it was created for. *)
Definition store_wf (w : World) : Prop :=
  forall h q, queues w !! h = Some q -> Queue.wf q.

(** [k] recovery actions in a row. *)
Definition rotations (k : nat) (w : World) : World :=
  Nat.iter k (exec rotateP1MeterBaudRate) w.

(** The events [handleFrame] can add: log lines and the packaging call. *)
Definition isLogOrPackaging (e : Event) : Prop :=
  match e with Log _ _ | CreateP1JWTPayload _ => True | _ => False end.

(** What the code may do to the store of queues when [own] is the handle it
    holds: every queue stays within its capacity, only the queue under [own]
    may change, and no queue appears, disappears or changes capacity. *)
Definition store_kept (own : option QueueHandle_t)
           (qs qs' : gmap QueueHandle_t (Queue.t DataPackage)) : Prop :=
  (forall h q, qs' !! h = Some q -> Queue.wf q)
  /\ (forall h, own <> Some h -> qs' !! h = qs !! h)
  /\ (forall h, Queue.uxLength <$> qs' !! h = Queue.uxLength <$> qs !! h).


End DataReaderTask.

Arguments World {_}.
Arguments DataReaderTask {_}.
Arguments M {_} _.

(** ** A concrete installation

    Readings are numbers, a configuration is a baud rate; the meter has three
    configurations; only frames on the HDLC path with at least three bytes
    decode; packaging rejects negative readings; the link only comes up at
    115200 baud. *)
Definition bench : Collaborators := {|
  P1Data := Z;
  P1MeterConfig := Z;
  DLMSDecoder_decodeBuffer :=
    fun frame => if Nat.ltb (getFrameSize frame) 3 then None else Some 42;
  AsciiDecoder_decodeBuffer := fun _ => None;
  P1Data_setTimeStamp := fun p => p;
  createP1JWTPayload := fun p => (p <? 0, "eyJ");
  P1Meter_getNumConfigs := 3;
  P1Meter_getConfig := fun ix => nth (Z.to_nat ix) [115200; 9600; 2400] 0;
  P1Meter_begin_ok := fun cfg => cfg =? 115200
|}.

(** The same installation with a single configuration. *)
Definition bench1 : Collaborators := {|
  P1Data := Z;
  P1MeterConfig := Z;
  DLMSDecoder_decodeBuffer :=
    fun frame => if Nat.ltb (getFrameSize frame) 3 then None else Some 42;
  AsciiDecoder_decodeBuffer := fun _ => None;
  P1Data_setTimeStamp := fun p => p;
  createP1JWTPayload := fun p => (p <? 0, "eyJ");
  P1Meter_getNumConfigs := 1;
  P1Meter_getConfig := fun _ => 115200;
  P1Meter_begin_ok := fun _ => false
|}.

Definition pkgA : DataPackage := {| data := "A"; timestamp := 1 |}.
Definition pkgB : DataPackage := {| data := "B"; timestamp := 2 |}.
Definition pkgC : DataPackage := {| data := "C"; timestamp := 3 |}.

(** A world for either installation: a freshly constructed object, a clock
    that advances by [step] milliseconds between two readings, and the given
    queue under handle 7. *)
Definition benchWorld `{Collaborators} (step : Z) (q : Queue.t DataPackage) : World := {|
  self := DataReaderTask_new 4096 5;
  debug := Diag.init;
  queues := {[ 7%nat := q ]};
  tasks := [];
  clock := fun n => step * (Z.of_nat n + 1);
  clock_reads := 0;
  trace := []
|}.

(** The worker started on queue 7 (capacity 2, empty). *)
Definition benchStarted `{Collaborators} (step : Z) : World :=
  exec (begin (Some 7%nat)) (benchWorld step (Queue.mk 2 [])).

(** The bench installation with a packaging step that refuses everything. *)
Definition benchRefusing : Collaborators := {|
  P1Data := Z;
  P1MeterConfig := Z;
  DLMSDecoder_decodeBuffer :=
    fun frame => if Nat.ltb (getFrameSize frame) 3 then None else Some 42;
  AsciiDecoder_decodeBuffer := fun _ => None;
  P1Data_setTimeStamp := fun p => p + 1;
  createP1JWTPayload := fun _ => (true, EmptyString);
  P1Meter_getNumConfigs := 3;
  P1Meter_getConfig := fun ix => nth (Z.to_nat ix) [115200; 9600; 2400] 0;
  P1Meter_begin_ok := fun _ => false
|}.

(** A world whose stall timer was set 1000 ms before the 32-bit counter
    wrapped and whose clock reads 500 ms after the wrap. *)
Definition wrapWorld `{Collaborators} : World := {|
  self := with_lastReadTime (2 ^ 32 - 1000) (DataReaderTask_new 4096 5);
  debug := Diag.init;
  queues := ∅;
  tasks := [];
  clock := fun _ => 2 ^ 32 + 500;
  clock_reads := 0;
  trace := []
|}.

Definition hdlcFrame : IFrameData := {|
  getFrameTypeId := FRAME_TYPE_HDLC;
  getFrameSize := 3;
  getFrameByte := fun i => nth i [x7e; xa0; x7e] x00
|}.

Definition shortHdlcFrame : IFrameData := {|
  getFrameTypeId := FRAME_TYPE_HDLC;
  getFrameSize := 2;
  getFrameByte := fun i => nth i [x7e; xa0] x00
|}.

Definition mbusFrame : IFrameData := {|
  getFrameTypeId := FRAME_TYPE_MBUS;
  getFrameSize := 2;
  getFrameByte := fun i => nth i [x68; x16] x00
|}.

(** ** Properties *)

Section Properties.
Context `{Collaborators}.

Lemma exec_bind {A B} (c : M A) (k : A -> M B) (w : World) :
  exec (bind c k) w = exec (k (fst (c w))) (exec c w).
Proof. unfold exec, bind. destruct (c w). reflexivity. Qed.

(** *** The delivery queue *)

(** What one push leaves in a queue of capacity [n] that held [l]. *)
Lemma push_room_items {A} (l : list A) (x : A) (n : nat) :
  (length l < n)%nat -> drop (length l + 1 - n) (l ++ [x]) = l ++ [x].
Proof. intros Hlt. replace (length l + 1 - n)%nat with 0%nat by lia. reflexivity. Qed.

Lemma push_full_items {A} (l : list A) (x : A) (n : nat) :
  length l = n -> drop (length l + 1 - n) (l ++ [x]) = tail (l ++ [x]).
Proof.
  intros Heq. replace (length l + 1 - n)%nat with 1%nat by lia.
  destruct l; reflexivity.
Qed.

(** The push of [enqueueData] on a live queue: the store afterwards. *)
Lemma enqueuePackage_queues (w : World) (h : QueueHandle_t)
      (q : Queue.t DataPackage) (package : DataPackage) :
  queues w !! h = Some q -> Queue.wf q ->
  queues (exec (enqueuePackage h package) w) =
    <[h := Queue.mk (Queue.uxLength q)
             (drop (length (Queue.items q) + 1 - Queue.uxLength q)
                   (Queue.items q ++ [package]))]> (queues w).
Proof.
  intros Hq Hwf. destruct q as [n l]. unfold Queue.wf in Hwf. simpl in Hwf. simpl.
  unfold enqueuePackage, exec, bind, uxQueueSpacesAvailable, when.
  rewrite Hq. simpl. unfold Queue.uxQueueSpacesAvailable, Queue.uxMessagesWaiting. simpl.
  destruct (Nat.eqb_spec (n - length l) 0) as [Hfull|Hroom].
  - (* full: receive, then send *)
    rewrite push_full_items by lia.
    unfold xQueueReceive, LOG, emit, modify, xQueueSendToBack. simpl. rewrite Hq.
    unfold Queue.xQueueReceive. simpl.
    destruct l as [|x rest]; simpl.
    + rewrite lookup_insert_eq. unfold Queue.xQueueSendToBack, Queue.uxMessagesWaiting. simpl.
      simpl in Hfull.
      rewrite !bool_decide_eq_false_2 by lia. simpl.
      rewrite insert_insert_eq. reflexivity.
    + rewrite lookup_insert_eq. unfold Queue.xQueueSendToBack, Queue.uxMessagesWaiting. simpl.
      simpl in Hfull, Hwf.
      rewrite bool_decide_eq_true_2 by lia. simpl.
      rewrite insert_insert_eq. reflexivity.
  - (* room: send *)
    rewrite push_room_items by lia.
    unfold xQueueSendToBack, ret. simpl. rewrite Hq.
    unfold Queue.xQueueSendToBack, Queue.uxMessagesWaiting. simpl.
    rewrite !bool_decide_eq_true_2 by lia. simpl. reflexivity.
Qed.

Lemma drop_push_many {A} (l : list A) (x : A) (xs : list A) (n : nat) :
  (length l <= n)%nat ->
  let l1 := drop (length l + 1 - n) (l ++ [x]) in
  drop (length (l1 ++ xs) - n) (l1 ++ xs) =
    drop (length (l ++ x :: xs) - n) (l ++ x :: xs).
Proof.
  intros Hle l1. subst l1.
  replace (l ++ x :: xs) with ((l ++ [x]) ++ xs) by (rewrite <- app_assoc; reflexivity).
  set (b := (length l + 1 - n)%nat).
  assert (Hb : (b <= length (l ++ [x]))%nat) by (rewrite length_app; simpl; lia).
  rewrite <- (drop_app_le (l ++ [x]) xs b Hb).
  rewrite drop_drop, length_drop. f_equal.
  rewrite !length_app in *. simpl in *. lia.
Qed.

Lemma enqueuePackages_queue (packages : list DataPackage) :
  forall (w : World) (h : QueueHandle_t) (q : Queue.t DataPackage),
  queues w !! h = Some q -> Queue.wf q ->
  queues (exec (enqueuePackages h packages) w) !! h =
    Some (Queue.mk (Queue.uxLength q)
            (drop (length (Queue.items q ++ packages) - Queue.uxLength q)
                  (Queue.items q ++ packages))).
Proof.
  induction packages as [|p ps IH]; intros w h q Hq Hwf.
  - simpl. unfold exec, ret. simpl. rewrite Hq. destruct q as [n l].
    unfold Queue.wf in Hwf. simpl in *. rewrite app_nil_r.
    replace (length l - n)%nat with 0%nat by lia. reflexivity.
  - simpl. rewrite exec_bind.
    pose proof (enqueuePackage_queues w h q p Hq Hwf) as Hstep.
    set (w1 := exec (enqueuePackage h p) w) in *.
    set (q1 := Queue.mk (Queue.uxLength q)
                 (drop (length (Queue.items q) + 1 - Queue.uxLength q)
                       (Queue.items q ++ [p]))) in *.
    assert (Hq1 : queues w1 !! h = Some q1) by (rewrite Hstep; apply lookup_insert_eq).
    assert (Hwf1 : Queue.wf q1).
    { unfold Queue.wf in *. subst q1. simpl.
      rewrite length_drop, length_app. simpl. lia. }
    rewrite (IH w1 h q1 Hq1 Hwf1). subst q1. simpl.
    rewrite drop_push_many by exact Hwf. reflexivity.
Qed.

(** C1.  Pushing into a delivery queue of capacity [N] (a live queue that
    holds at most [N] packages):
    - a push that finds the queue at capacity removes the package at the
      head and appends the new one at the tail;
    - after any sequence of pushes the queue holds the last [N] of the
      packages it held and was given, in their order, or all of them when
      they are fewer, and so never more than [N];
    - from an empty queue, [k] pushes leave exactly the last [min k N]
      packages pushed, in their order. *)
Theorem delivery_queue_drop_oldest (w : World) (h : QueueHandle_t)
        (q : Queue.t DataPackage) :
  queues w !! h = Some q -> Queue.wf q ->
  let N := Queue.uxLength q in
  (forall oldest rest package,
      Queue.items q = oldest :: rest -> length (Queue.items q) = N ->
      queues (exec (enqueuePackage h package) w) !! h =
        Some (Queue.mk N (rest ++ [package])))
  /\ (forall packages,
        let all := Queue.items q ++ packages in
        exists q',
          queues (exec (enqueuePackages h packages) w) !! h = Some q'
          /\ Queue.uxLength q' = N
          /\ Queue.items q' = drop (length all - N) all
          /\ (length (Queue.items q') <= N)%nat)
  /\ (forall packages,
        Queue.items q = [] ->
        let k := length packages in
        queues (exec (enqueuePackages h packages) w) !! h =
          Some (Queue.mk N (drop (k - Nat.min k N) packages))).
Proof.
  intros Hq Hwf N. split; [|split].
  - intros oldest rest package Hitems Hfull.
    rewrite (enqueuePackage_queues w h q package Hq Hwf), lookup_insert_eq.
    fold N. rewrite Hitems in *. simpl in Hfull.
    replace (length (oldest :: rest) + 1 - N)%nat with 1%nat by (simpl; lia).
    reflexivity.
  - intros packages all.
    eexists. split; [apply (enqueuePackages_queue packages w h q Hq Hwf)|].
    simpl. fold N all. split; [reflexivity|]. split; [reflexivity|].
    rewrite length_drop. lia.
  - intros packages Hempty k.
    rewrite (enqueuePackages_queue packages w h q Hq Hwf).
    fold N. rewrite Hempty. simpl. fold k.
    replace (k - Nat.min k N)%nat with (k - N)%nat by lia. reflexivity.
Qed.

(** *** The recovery supervisor *)

Lemma stallCheck_stalled (w : World) :
  30 * 1000 < elapsed w -> exec stallCheck w = rotated w.
Proof.
  intros Hlt. unfold stallCheck, rotated, clockRead, exec, bind, millis, gets, when.
  cbn [fst snd self with_clock_reads lastReadTime].
  unfold elapsed, nextMillis in Hlt.
  destruct (Z.ltb_spec (30 * 1000)
              ((clock w (clock_reads w) mod 2 ^ 32 - lastReadTime (self w)) mod 2 ^ 32));
    [reflexivity | lia].
Qed.

Lemma stallCheck_quiet (w : World) :
  elapsed w <= 30 * 1000 -> exec stallCheck w = clockRead w.
Proof.
  intros Hle. unfold stallCheck, clockRead, exec, bind, millis, gets, when.
  cbn [fst snd self with_clock_reads lastReadTime].
  unfold elapsed, nextMillis in Hle.
  destruct (Z.ltb_spec (30 * 1000)
              ((clock w (clock_reads w) mod 2 ^ 32 - lastReadTime (self w)) mod 2 ^ 32));
    [lia | reflexivity].
Qed.

(** The recovery action when there is nothing to rotate to. *)
Lemma rotate_single (w : World) :
  P1Meter_getNumConfigs <= 1 ->
  exec rotateP1MeterBaudRate w =
    with_self (with_lastReadTime (nextMillis w)) (clockRead w).
Proof.
  intros Hn. unfold rotateP1MeterBaudRate, exec, bind, when.
  destruct (Z.ltb_spec 1 P1Meter_getNumConfigs); [lia|]. reflexivity.
Qed.

(** The recovery action when there are several configurations. *)
Lemma rotate_several (w : World) :
  1 < P1Meter_getNumConfigs ->
  let ix' := Z.rem (baudRateIx (self w) + 1) P1Meter_getNumConfigs in
  let cfg := P1Meter_getConfig ix' in
  let w' := exec rotateP1MeterBaudRate w in
  baudRateIx (self w') = ix'
  /\ activeConfig (p1Meter (self w')) = Some cfg
  /\ lastReadTime (self w') = nextMillis w
  /\ clock_reads w' = S (clock_reads w)
  /\ clock w' = clock w
  /\ queues w' = queues w
  /\ Diag.p1MeterConfigIndex (debug w') = ix'
  /\ trace w' =
       (if P1Meter_begin_ok cfg then []
        else [Log LOG_TE "Failed to reinitialize P1 meter with config ix: %d"])
       ++ P1Meter_begin cfg (P1Meter_begin_ok cfg)
       :: Log LOG_TD "Rotating P1 meter condfig to %d" :: trace w.
Proof.
  intros Hn ix' cfg w'. subst w'.
  unfold rotateP1MeterBaudRate, exec, bind, when.
  destruct (Z.ltb_spec 1 P1Meter_getNumConfigs); [|lia].
  unfold p1Meter_begin, bind, gets, assign, emit, modify, ret, LOG,
    Debug_setP1MeterConfigIndex, millis, nextMillis.
  cbn [fst snd self with_self with_baudRateIx baudRateIx].
  fold ix' cfg.
  destruct (P1Meter_begin_ok cfg); cbn; repeat split; reflexivity.
Qed.



(** C4.  The recovery action always ends by setting the stall timer to the
    clock value it reads then (its only reading of the clock), whatever
    [p1Meter.begin] answered; and with a single configuration (or none) it
    changes nothing else: the index, the meter, the diagnostics and the
    trace stay as they were, so nothing was rotated or reconfigured. *)
Theorem recovery_resets_stall_timer (w : World) :
  let w' := exec rotateP1MeterBaudRate w in
  lastReadTime (self w') = nextMillis w
  /\ clock_reads w' = S (clock_reads w)
  /\ (P1Meter_getNumConfigs <= 1 ->
      w' = with_self (with_lastReadTime (nextMillis w)) (clockRead w)
      /\ baudRateIx (self w') = baudRateIx (self w)
      /\ p1Meter (self w') = p1Meter (self w)
      /\ debug w' = debug w
      /\ trace w' = trace w).
Proof.
  intros w'. subst w'.
  destruct (Z.le_gt_cases P1Meter_getNumConfigs 1) as [Hone|Hmany].
  - rewrite (rotate_single w Hone). repeat split.
  - destruct (rotate_several w ltac:(lia)) as (_ & _ & Ht & Hc & _).
    split; [exact Ht|]. split; [exact Hc|]. intros Hone. lia.
Qed.

(** C2.  When the meter has more than one configuration and more than
    thirty seconds have passed since [lastReadTime] (the last successful
    decode or the last recovery action), the stall check moves the index to
    [(index + 1) mod count], calls [p1Meter.begin] with that configuration
    and leaves the meter set to it.  With three configurations and index 0,
    successive stalls give the indices 1, 2 and 0 again.  The index is taken
    not to be negative, which [rotate_keeps_index] shows it never is. *)
Theorem stall_rotates_configuration (w : World) :
  1 < P1Meter_getNumConfigs ->
  0 <= baudRateIx (self w) ->
  30 * 1000 < elapsed w ->
  let count := P1Meter_getNumConfigs in
  let ix1 := (baudRateIx (self w) + 1) mod count in
  let cfg := P1Meter_getConfig ix1 in
  let w1 := exec stallCheck w in
  let w2 := exec stallCheck w1 in
  let w3 := exec stallCheck w2 in
  baudRateIx (self w1) = ix1
  /\ 0 <= ix1 < count
  /\ activeConfig (p1Meter (self w1)) = Some cfg
  /\ (exists report,
        Forall isLog report /\
        trace w1 = report ++ P1Meter_begin cfg (P1Meter_begin_ok cfg)
                          :: Log LOG_TD "Rotating P1 meter condfig to %d" :: trace w)
  /\ (count = 3 -> baudRateIx (self w) = 0 ->
      30 * 1000 < elapsed w1 -> 30 * 1000 < elapsed w2 ->
      baudRateIx (self w1) = 1 /\ baudRateIx (self w2) = 2 /\ baudRateIx (self w3) = 0).
Proof.
  intros Hn Hix Hstall count ix1 cfg w1 w2 w3. subst count.
  assert (Hrem : forall ix, 0 <= ix ->
            Z.rem (ix + 1) P1Meter_getNumConfigs = (ix + 1) mod P1Meter_getNumConfigs).
  { intros ix Hge. apply Z.rem_mod_nonneg; lia. }
  assert (Hstep : forall v, 30 * 1000 < elapsed v -> 0 <= baudRateIx (self v) ->
            baudRateIx (self (exec stallCheck v)) =
              (baudRateIx (self v) + 1) mod P1Meter_getNumConfigs).
  { intros v Hv Hge. rewrite (stallCheck_stalled v Hv). unfold rotated.
    destruct (rotate_several (clockRead v) Hn) as (Hi & _).
    rewrite Hi. apply Hrem. exact Hge. }
  assert (H1 : baudRateIx (self w1) = ix1) by (apply Hstep; assumption).
  split; [exact H1|].
  split; [subst ix1; apply Z.mod_pos_bound; lia|].
  destruct (rotate_several (clockRead w) Hn) as (_ & Hcfg & _ & _ & _ & _ & _ & Htr).
  fold (rotated w) in Hcfg, Htr. rewrite <- (stallCheck_stalled w Hstall) in Hcfg, Htr.
  fold w1 in Hcfg, Htr.
  cbn [clockRead with_clock_reads self trace] in Hcfg, Htr.
  rewrite (Hrem _ Hix) in Hcfg, Htr. fold ix1 cfg in Hcfg, Htr.
  split; [exact Hcfg|]. split.
  - eexists. split; [|exact Htr].
    destruct (P1Meter_begin_ok cfg); repeat constructor.
  - intros H3 H0 Hs1 Hs2.
    assert (E1 : baudRateIx (self w1) = 1).
    { rewrite H1. subst ix1. rewrite H0, H3. reflexivity. }
    split; [exact E1|].
    assert (E2 : baudRateIx (self w2) = 2).
    { subst w2. rewrite (Hstep _ Hs1) by (rewrite E1; lia). rewrite E1, H3. reflexivity. }
    split; [exact E2|].
    subst w3. rewrite (Hstep _ Hs2) by (rewrite E2; lia). rewrite E2, H3. reflexivity.
Qed.

(** *** Frame handling *)

(** The worlds reached by adding events, newest first. *)
Lemma trace_events (events : list Event) (w : World) :
  let w' := foldr with_event w events in
  trace w' = events ++ trace w /\ self w' = self w /\ debug w' = debug w
  /\ queues w' = queues w /\ tasks w' = tasks w
  /\ clock w' = clock w /\ clock_reads w' = clock_reads w.
Proof.
  induction events as [|e events IH]; simpl; [repeat split|].
  destruct IH as (Ht & Hs & Hd & Hq & Hk & Hc & Hr).
  rewrite Ht. repeat split; assumption.
Qed.

(** The dispatch only logs. *)
Lemma decodeFrame_logs (frame : IFrameData) (w : World) :
  exists logs, Forall isLog logs /\
    exec (decodeFrame frame) w = foldr with_event w logs.
Proof.
  unfold decodeFrame.
  destruct (getFrameTypeId frame).
  - destruct (DLMSDecoder_decodeBuffer frame).
    + exists [Log LOG_TI "DLMS data decoded successfully"; Log LOG_TD "DLMS frame detected"].
      split; [repeat constructor | reflexivity].
    + exists [Log LOG_TD "DLMS frame detected"]. split; [repeat constructor | reflexivity].
  - destruct (AsciiDecoder_decodeBuffer frame).
    + exists [Log LOG_TI "ASCII data decoded successfully"; Log LOG_TD "ASCII frame detected"].
      split; [repeat constructor | reflexivity].
    + exists [Log LOG_TD "ASCII frame detected"]. split; [repeat constructor | reflexivity].
  - exists [Log LOG_TD "M-Bus frame detected"]. split; [repeat constructor | reflexivity].
  - exists [Log LOG_TW "Unknown frame type"]. split; [repeat constructor | reflexivity].
Qed.

(** A frame type without a decoder never decodes. *)
Lemma decodeFrame_no_decoder (frame : IFrameData) (w : World) :
  getFrameTypeId frame <> FRAME_TYPE_HDLC ->
  getFrameTypeId frame <> FRAME_TYPE_ASCII ->
  fst (decodeFrame frame w) = None.
Proof.
  intros Hh Ha. unfold decodeFrame.
  destruct (getFrameTypeId frame); [congruence | congruence | reflexivity | reflexivity].
Qed.

(** The copy loop appends the bytes at [i], [i+1], ... to the snapshot. *)
Lemma copyFaultyFrame_snapshot (frame : IFrameData) (count : nat) :
  forall (i : nat) (w : World),
  exec (copyFaultyFrame frame i count) w =
    with_debug (fun d => Diag.mk (Diag.frames d) (Diag.failedFrames d)
                           (Diag.faultyFrameData d ++ map (getFrameByte frame) (seq i count))
                           (Diag.p1MeterConfigIndex d)) w.
Proof.
  induction count as [|count IH]; intros i w.
  - unfold exec, with_debug. simpl. rewrite app_nil_r.
    destruct w as [s d qs ts c r t]. destruct d. reflexivity.
  - simpl. rewrite exec_bind, IH.
    unfold exec, Debug_addFaultyFrameData, modify, with_debug, Diag.addFaultyFrameData.
    simpl. rewrite <- app_assoc. reflexivity.
Qed.

(** What [handleFrame] does with a frame that does not decode. *)
Lemma handleFrame_failed (frame : IFrameData) (w : World) :
  fst (decodeFrame frame w) = None ->
  exists logs, Forall isLog logs /\
    handleFrame frame w =
      (tt, with_event (Log LOG_TE "Failed to decode P1 data frame")
             (with_debug (fun d => Diag.mk (Diag.frames d) (Diag.failedFrames d + 1)
                                     (frameBytes frame) (Diag.p1MeterConfigIndex d))
                (with_event (Log LOG_TI "Frame decoded %s")
                   (foldr with_event w logs)))).
Proof.
  intros Hnone. destruct (decodeFrame_logs frame w) as (logs & Hlogs & Hw).
  exists logs. split; [exact Hlogs|].
  unfold handleFrame. unfold bind at 1. unfold exec in Hw.
  destruct (decodeFrame frame w) as [decoded w0]. simpl in Hnone, Hw. subst decoded w0.
  unfold bind at 1. unfold LOG, emit, modify at 1.
  unfold bind at 1. unfold Debug_addFailedFrame, modify at 1.
  unfold bind at 1. unfold Debug_clearFaultyFrameData, modify at 1.
  unfold bind at 1.
  pose proof (copyFaultyFrame_snapshot frame (getFrameSize frame) 0%nat) as Hcopy.
  unfold exec in Hcopy.
  match goal with |- context [copyFaultyFrame frame 0 (getFrameSize frame) ?v] =>
    specialize (Hcopy v); destruct (copyFaultyFrame frame 0 (getFrameSize frame) v) as [[] w1]
  end.
  simpl in Hcopy. subst w1. reflexivity.
Qed.

(** What [handleFrame] does with a frame that decodes to [p1data]. *)
Lemma handleFrame_decoded (frame : IFrameData) (p1data : P1Data) (w : World) :
  fst (decodeFrame frame w) = Some p1data ->
  exists logs, Forall isLog logs /\
    exec (handleFrame frame) w =
      with_self (with_lastDecodedData (Some (P1Data_setTimeStamp p1data)))
        (exec (enqueueData (P1Data_setTimeStamp p1data))
           (with_self (with_lastReadTime (nextMillis w))
              (clockRead (with_debug Diag.addFrame
                 (with_event (Log LOG_TI "Frame decoded %s")
                    (foldr with_event w logs)))))).
Proof.
  intros Hsome. destruct (decodeFrame_logs frame w) as (logs & Hlogs & Hw).
  exists logs. split; [exact Hlogs|].
  destruct (trace_events logs w) as (_ & _ & _ & _ & _ & Hc & Hr).
  unfold exec in *. unfold handleFrame. unfold bind at 1.
  destruct (decodeFrame frame w) as [decoded w0]. simpl in Hsome, Hw. subst decoded w0.
  unfold bind at 1. unfold LOG, emit, modify at 1.
  unfold bind at 1. unfold Debug_addFrame, modify at 1.
  unfold bind at 1. unfold millis.
  unfold bind at 1. unfold assign, modify at 1.
  unfold bind at 1.
  unfold nextMillis, clockRead.
  cbn [clock clock_reads with_debug with_event].
  rewrite Hc, Hr.
  match goal with |- context [enqueueData ?d ?v] =>
    destruct (enqueueData d v) as [[] w1] end.
  reflexivity.
Qed.

(** The push touches the queue store and the trace, nothing else. *)
Lemma enqueuePackage_frame (h : QueueHandle_t) (package : DataPackage) (w : World) :
  let w' := exec (enqueuePackage h package) w in
  self w' = self w /\ debug w' = debug w /\ tasks w' = tasks w
  /\ clock w' = clock w /\ clock_reads w' = clock_reads w.
Proof.
  unfold enqueuePackage, exec, bind, uxQueueSpacesAvailable, when,
    xQueueReceive, xQueueSendToBack, LOG, emit, modify, ret.
  destruct (queues w !! h) as [q|] eqn:Hq; cbn [from_option fst snd].
  - destruct (Nat.eqb (Queue.uxQueueSpacesAvailable q) 0).
    + rewrite Hq. destruct (Queue.xQueueReceive q) as [r q1].
      cbn [queues with_queues with_event]. rewrite lookup_insert_eq.
      destruct (Queue.xQueueSendToBack q1 package) as [[] q2]; repeat split.
    + rewrite Hq.
      destruct (Queue.xQueueSendToBack q package) as [[] q2]; repeat split.
  - simpl. rewrite Hq. simpl. rewrite Hq. repeat split.
Qed.

Lemma enqueueData_frame (p1data : P1Data) (w : World) :
  let w' := exec (enqueueData p1data) w in
  self w' = self w /\ debug w' = debug w /\ tasks w' = tasks w /\ clock w' = clock w.
Proof.
  unfold enqueueData, exec, bind, gets. cbn [fst snd].
  destruct (p1DataQueue (self w)) as [h|]; [|repeat split].
  unfold emit, modify. cbn [fst snd].
  destruct (createP1JWTPayload p1data) as [[] buf]; [repeat split|].
  unfold millis. cbn [fst snd].
  match goal with |- context [enqueuePackage h ?pkg ?v] =>
    pose proof (enqueuePackage_frame h pkg v) as Hf; unfold exec in Hf;
    destruct (enqueuePackage h pkg v) as [[] w1] end.
  cbn [fst snd] in *. destruct Hf as (Hs & Hd & Ht & Hc & _).
  rewrite Hs, Hd, Ht, Hc. repeat split.
Qed.

(** [enqueueData] once a queue handle is there. *)
Lemma enqueueData_with_queue (w : World) (p1data : P1Data) (h : QueueHandle_t) :
  p1DataQueue (self w) = Some h ->
  exec (enqueueData p1data) w =
    let attempted := with_event (CreateP1JWTPayload p1data) w in
    if fst (createP1JWTPayload p1data)
    then with_event (Log LOG_TE "Failed to create JWT") attempted
    else exec (enqueuePackage h {| data := snd (createP1JWTPayload p1data);
                                   timestamp := nextMillis w |})
              (clockRead attempted).
Proof.
  intros Hh. unfold enqueueData, exec, bind, gets. cbn [fst snd]. rewrite Hh.
  unfold emit, modify. cbn [fst snd].
  destruct (createP1JWTPayload p1data) as [[] buf]; reflexivity.
Qed.

(** C3.  [enqueueData] with a queue handle, by what [createP1JWTPayload]
    returns (a non-zero value is what the caller reads as a failure):
    - on a failure it logs the error and returns: the store of queues is as
      it was, the reading is not kept for another try;
    - otherwise it pushes the package made of the payload and of the clock
      value read then; on a live queue of capacity at least one that
      package ends up at the tail. *)
Theorem packaging_decides_enqueue (w : World) (p1data : P1Data) (h : QueueHandle_t) :
  p1DataQueue (self w) = Some h ->
  let w' := exec (enqueueData p1data) w in
  let attempted := with_event (CreateP1JWTPayload p1data) w in
  (fst (createP1JWTPayload p1data) = true ->
     w' = with_event (Log LOG_TE "Failed to create JWT") attempted
     /\ queues w' = queues w)
  /\ (fst (createP1JWTPayload p1data) = false ->
      let package := {| data := snd (createP1JWTPayload p1data);
                        timestamp := nextMillis w |} in
      w' = exec (enqueuePackage h package) (clockRead attempted)
      /\ forall q, queues w !! h = Some q -> Queue.wf q -> (0 < Queue.uxLength q)%nat ->
           exists q', queues w' !! h = Some q'
                      /\ Queue.uxLength q' = Queue.uxLength q
                      /\ last (Queue.items q') = Some package
                      /\ (length (Queue.items q') <= Queue.uxLength q)%nat).
Proof.
  intros Hh w' attempted. subst w'.
  rewrite (enqueueData_with_queue w p1data h Hh). cbn zeta. fold attempted.
  split; intros ->.
  - split; reflexivity.
  - set (package := {| data := snd (createP1JWTPayload p1data);
                       timestamp := nextMillis w |}).
    split; [reflexivity|].
    intros q Hq Hwf Hcap.
    rewrite (enqueuePackage_queues (clockRead attempted) h q package Hq Hwf).
    rewrite lookup_insert_eq. eexists. split; [reflexivity|]. simpl.
    split; [reflexivity|].
    unfold Queue.wf in Hwf. split.
    + destruct (decide (length (Queue.items q) < Queue.uxLength q)%nat) as [Hroom|Hfull].
      * rewrite push_room_items by exact Hroom. apply last_snoc.
      * rewrite push_full_items by lia.
        destruct (Queue.items q) as [|x rest] eqn:E; simpl in *; [lia|]. apply last_snoc.
    + rewrite length_drop, length_app. simpl. lia.
Qed.

(** C10.  Without a queue handle [enqueueData] returns at once and leaves
    the world as it was: no packaging call, no queue call, no log.  A frame
    that decodes before [begin] supplied a handle is handled to the end:
    only its bookkeeping changes (frame counter, stall timer, last reading,
    log lines) and no queue of the store is touched. *)
Theorem enqueue_without_queue_is_noop (w : World) :
  p1DataQueue (self w) = None ->
  (forall p1data, enqueueData p1data w = (tt, w))
  /\ (forall frame p1data,
        fst (decodeFrame frame w) = Some p1data ->
        exists logs, Forall isLog logs /\
          handleFrame frame w =
            (tt, with_self (with_lastDecodedData (Some (P1Data_setTimeStamp p1data)))
                   (with_self (with_lastReadTime (nextMillis w))
                      (clockRead (with_debug Diag.addFrame
                         (foldr with_event w logs)))))
          /\ queues (exec (handleFrame frame) w) = queues w
          /\ trace (exec (handleFrame frame) w) = logs ++ trace w).
Proof.
  intros Hnull.
  assert (Hnoop : forall p1data v, p1DataQueue (self v) = None ->
                    enqueueData p1data v = (tt, v)).
  { intros p1data v Hv. unfold enqueueData, bind, gets. rewrite Hv. reflexivity. }
  split; [intros p1data; apply Hnoop; exact Hnull|].
  intros frame p1data Hsome.
  destruct (handleFrame_decoded frame p1data w Hsome) as (logs & Hlogs & Hw).
  exists (Log LOG_TI "Frame decoded %s" :: logs).
  split; [constructor; [exact I | exact Hlogs]|].
  destruct (trace_events logs w) as (Ht & Hs & _ & Hq & _).
  unfold exec in Hw |- *. rewrite Hnoop in Hw
    by (cbn [self with_self with_lastReadTime clockRead with_clock_reads with_debug
             with_event p1DataQueue]; rewrite Hs; exact Hnull).
  destruct (handleFrame frame w) as [[] w1]. cbn [snd] in *. subst w1.
  split; [reflexivity|]. cbn. rewrite Hq, Ht. split; reflexivity.
Qed.

(** The snapshot calls one after the other: clear, then one call a byte. *)
Lemma snapshot_calls (bytes : list byte) (d : Diag.t) :
  foldl (fun d b => Diag.addFaultyFrameData b d) d bytes =
    Diag.mk (Diag.frames d) (Diag.failedFrames d)
            (Diag.faultyFrameData d ++ bytes) (Diag.p1MeterConfigIndex d).
Proof.
  revert d. induction bytes as [|b bytes IH]; intros d; simpl.
  - rewrite app_nil_r. destruct d; reflexivity.
  - rewrite IH. simpl. rewrite <- app_assoc. reflexivity.
Qed.

(** C6.  A frame whose decode fails leaves the queues and every field of the
    object, the stall timer among them, as they were; the clock is not
    read.  What changes is diagnostics: the failed-frame counter goes up by
    one, the faulty-frame snapshot becomes the bytes of this frame, first
    to last (the calls are [addFailedFrame], [clearFaultyFrameData], then
    [addFaultyFrameData] once a byte), and log lines are written. *)
Theorem decode_failure_updates_diagnostics_only (w : World) (frame : IFrameData) :
  fst (decodeFrame frame w) = None ->
  let w' := exec (handleFrame frame) w in
  queues w' = queues w
  /\ self w' = self w
  /\ lastReadTime (self w') = lastReadTime (self w)
  /\ tasks w' = tasks w
  /\ clock_reads w' = clock_reads w
  /\ Diag.failedFrames (debug w') = (Diag.failedFrames (debug w) + 1)%N
  /\ Diag.faultyFrameData (debug w') = frameBytes frame
  /\ Diag.frames (debug w') = Diag.frames (debug w)
  /\ Diag.p1MeterConfigIndex (debug w') = Diag.p1MeterConfigIndex (debug w)
  /\ debug w' = foldl (fun d b => Diag.addFaultyFrameData b d)
                      (Diag.clearFaultyFrameData (Diag.addFailedFrame (debug w)))
                      (frameBytes frame)
  /\ exists logs, Forall isLog logs /\ trace w' = logs ++ trace w.
Proof.
  intros Hnone w'. subst w'.
  destruct (handleFrame_failed frame w Hnone) as (logs & Hlogs & Hw).
  destruct (trace_events logs w) as (Ht & Hs & Hd & Hq & Hk & _ & Hr).
  rewrite snapshot_calls.
  unfold exec. rewrite Hw. cbn. rewrite Hq, Hs, Hk, Hr, Hd, Ht.
  repeat (split; [reflexivity|]).
  exists (Log LOG_TE "Failed to decode P1 data frame"
          :: Log LOG_TI "Frame decoded %s" :: logs).
  split; [repeat constructor; exact Hlogs | reflexivity].
Qed.

(** C5.  A frame whose type is neither HDLC nor ASCII (the M-Bus type, for
    which nothing is implemented, and every other type) is handled to the
    end whatever its bytes: no decoder result is used, the failed-frame
    counter goes up by one, the counter of good frames stays, and nothing is
    packaged or put in a queue. *)
Theorem frame_without_decoder_counts_as_failure (w : World) (frame : IFrameData) :
  getFrameTypeId frame <> FRAME_TYPE_HDLC ->
  getFrameTypeId frame <> FRAME_TYPE_ASCII ->
  exists w',
    handleFrame frame w = (tt, w')
    /\ Diag.failedFrames (debug w') = (Diag.failedFrames (debug w) + 1)%N
    /\ Diag.frames (debug w') = Diag.frames (debug w)
    /\ queues w' = queues w
    /\ lastDecodedData (self w') = lastDecodedData (self w)
    /\ exists logs, Forall isLog logs /\ trace w' = logs ++ trace w.
Proof.
  intros Hh Ha.
  destruct (handleFrame_failed frame w (decodeFrame_no_decoder frame w Hh Ha))
    as (logs & Hlogs & Hw).
  destruct (trace_events logs w) as (Ht & Hs & Hd & Hq & _).
  eexists. split; [exact Hw|]. cbn. rewrite Hd, Hq, Hs, Ht.
  repeat (split; [reflexivity|]).
  exists (Log LOG_TE "Failed to decode P1 data frame"
          :: Log LOG_TI "Frame decoded %s" :: logs).
  split; [repeat constructor; exact Hlogs | reflexivity].
Qed.

(** C7.  A frame that decodes sets the stall timer to the clock value read
    while it is handled, and nothing in the rest of the handling changes it.
    A stall check made right after, with no more than thirty seconds on the
    clock since that value (none at all in particular), only reads the
    clock: the index, the meter and the trace stay as they were. *)
Theorem decode_success_defers_rotation (w : World) (frame : IFrameData) (p1data : P1Data) :
  fst (decodeFrame frame w) = Some p1data ->
  let w' := exec (handleFrame frame) w in
  let quiet := exec stallCheck w' = clockRead w'
               /\ baudRateIx (self (exec stallCheck w')) = baudRateIx (self w')
               /\ p1Meter (self (exec stallCheck w')) = p1Meter (self w')
               /\ lastReadTime (self (exec stallCheck w')) = lastReadTime (self w')
               /\ trace (exec stallCheck w') = trace w' in
  lastReadTime (self w') = nextMillis w
  /\ (elapsed w' <= 30 * 1000 -> quiet)
  /\ (nextMillis w' = lastReadTime (self w') -> quiet).
Proof.
  intros Hsome w' quiet.
  assert (Hlast : lastReadTime (self w') = nextMillis w).
  { subst w'. destruct (handleFrame_decoded frame p1data w Hsome) as (logs & _ & Hw).
    rewrite Hw. cbn [self with_self with_lastDecodedData lastReadTime].
    match goal with |- context [exec (enqueueData ?d) ?v] =>
      destruct (enqueueData_frame d v) as (Hs & _) end.
    rewrite Hs. reflexivity. }
  assert (Hquiet : elapsed w' <= 30 * 1000 -> quiet).
  { intros Hle. subst quiet. rewrite (stallCheck_quiet w' Hle). repeat split. }
  split; [exact Hlast|]. split; [exact Hquiet|].
  intros Hsame. apply Hquiet. unfold elapsed. rewrite Hsame, Z.sub_diag.
  rewrite Z.mod_0_l; lia.
Qed.

(** *** The control surface *)

(** C9.  [begin] on an object whose task handle is set returns at once and
    leaves the world as it was: no callback or queue handle registered, no
    task created.  [stop] on an object without a task handle does the
    same. *)
Theorem begin_stop_idempotent (w : World) :
  (forall dataQueue, is_Some (taskHandle (self w)) -> begin dataQueue w = (tt, w))
  /\ (taskHandle (self w) = None -> stop w = (tt, w)).
Proof.
  split.
  - intros dataQueue [t Ht]. unfold begin, bind, gets. rewrite Ht. reflexivity.
  - intros Ht. unfold stop, bind, gets. rewrite Ht. reflexivity.
Qed.

Lemma rotate_ignores_readInterval (interval : Z) (w : World) :
  exec rotateP1MeterBaudRate (with_self (with_readInterval interval) w) =
    with_self (with_readInterval interval) (exec rotateP1MeterBaudRate w).
Proof.
  unfold rotateP1MeterBaudRate, exec, bind, when.
  destruct (1 <? P1Meter_getNumConfigs); [|reflexivity].
  unfold p1Meter_begin, bind, gets, assign, emit, modify, ret, LOG,
    Debug_setP1MeterConfigIndex, millis, when.
  cbn [fst snd self with_self with_readInterval baudRateIx].
  destruct (P1Meter_begin_ok _); reflexivity.
Qed.

(** C8, as the code has it.  [setInterval] stores the duration in
    [readInterval] and changes nothing else; the stall check never reads
    that field: after [setInterval] as before, it rotates exactly when more
    than 30000 ms have passed since [lastReadTime], and running it before
    or after [setInterval] gives the same world. *)
Theorem stall_window_is_thirty_seconds (w : World) (interval : Z) :
  let w' := exec (setInterval interval) w in
  w' = with_self (with_readInterval interval) w
  /\ readInterval (self w') = interval
  /\ elapsed w' = elapsed w
  /\ (30 * 1000 < elapsed w -> exec stallCheck w' = rotated w')
  /\ (elapsed w <= 30 * 1000 -> exec stallCheck w' = clockRead w')
  /\ exec stallCheck w' = exec (setInterval interval) (exec stallCheck w).
Proof.
  intros w'. subst w'.
  change (exec (setInterval interval) w) with (with_self (with_readInterval interval) w).
  set (w' := with_self (with_readInterval interval) w).
  assert (He : elapsed w' = elapsed w) by reflexivity.
  split; [reflexivity|]. split; [reflexivity|]. split; [exact He|].
  split; [intros Hs; apply stallCheck_stalled; rewrite He; exact Hs|].
  split; [intros Hq; apply stallCheck_quiet; rewrite He; exact Hq|].
  change (exec (setInterval interval) (exec stallCheck w))
    with (with_self (with_readInterval interval) (exec stallCheck w)).
  destruct (Z.lt_ge_cases (30 * 1000) (elapsed w)) as [Hs|Hq].
  - rewrite (stallCheck_stalled w Hs), (stallCheck_stalled w') by (rewrite He; exact Hs).
    unfold rotated. subst w'.
    change (clockRead (with_self (with_readInterval interval) w))
      with (with_self (with_readInterval interval) (clockRead w)).
    apply rotate_ignores_readInterval.
  - rewrite (stallCheck_quiet w Hq), (stallCheck_quiet w') by (rewrite He; exact Hq).
    reflexivity.
Qed.

End Properties.

(** ** The statements at work on the bench installation *)

Lemma delivery_queue_drop_oldest_bench :
  queues (exec (enqueuePackages 7%nat [pkgA; pkgB; pkgC])
               (benchWorld (H:=bench) 40000 (Queue.mk 2 []))) !! 7%nat
    = Some (Queue.mk 2 [pkgB; pkgC])
  /\ queues (exec (enqueuePackage 7%nat pkgC)
                  (benchWorld (H:=bench) 40000 (Queue.mk 2 [pkgA; pkgB]))) !! 7%nat
    = Some (Queue.mk 2 [pkgB; pkgC]).
Proof.
  split.
  - assert (Hwf : Queue.wf (Queue.mk 2 ([] : list DataPackage)))
      by (unfold Queue.wf; simpl; lia).
    destruct (delivery_queue_drop_oldest (H:=bench)
                (benchWorld 40000 (Queue.mk 2 [])) 7%nat (Queue.mk 2 []) eq_refl Hwf)
      as (_ & _ & Hlast).
    exact (Hlast [pkgA; pkgB; pkgC] eq_refl).
  - assert (Hwf : Queue.wf (Queue.mk 2 [pkgA; pkgB]))
      by (unfold Queue.wf; simpl; lia).
    destruct (delivery_queue_drop_oldest (H:=bench)
                (benchWorld 40000 (Queue.mk 2 [pkgA; pkgB])) 7%nat
                (Queue.mk 2 [pkgA; pkgB]) eq_refl Hwf)
      as (Hstep & _).
    exact (Hstep pkgA [pkgB] pkgC eq_refl eq_refl).
Defined.

Lemma stall_rotates_configuration_bench :
  let w := benchStarted (H:=bench) 40000 in
  let w1 := exec stallCheck w in
  let w2 := exec stallCheck w1 in
  let w3 := exec stallCheck w2 in
  baudRateIx (self w) = 0
  /\ baudRateIx (self w1) = 1 /\ activeConfig (p1Meter (self w1)) = Some 9600
  /\ baudRateIx (self w2) = 2 /\ baudRateIx (self w3) = 0.
Proof.
  intros w w1 w2 w3.
  assert (Hn : 1 < P1Meter_getNumConfigs (Collaborators:=bench)) by (simpl; lia).
  assert (Hix : 0 <= baudRateIx (self w)) by (vm_compute; discriminate).
  assert (Hs : 30 * 1000 < elapsed w) by (vm_compute; reflexivity).
  destruct (stall_rotates_configuration (H:=bench) w Hn Hix Hs)
    as (_ & _ & Hcfg & _ & Hseq).
  assert (Hs1 : 30 * 1000 < elapsed w1) by (vm_compute; reflexivity).
  assert (Hs2 : 30 * 1000 < elapsed w2) by (vm_compute; reflexivity).
  destruct (Hseq eq_refl eq_refl Hs1 Hs2) as (H1 & H2 & H3).
  split; [reflexivity|]. split; [exact H1|]. split; [exact Hcfg|].
  split; [exact H2 | exact H3].
Defined.

Lemma packaging_decides_enqueue_bench :
  let w := benchStarted (H:=bench) 40000 in
  queues (exec (enqueueData (H:=bench) (-1)) w) = queues w
  /\ exists q', queues (exec (enqueueData (H:=bench) 42) w) !! 7%nat = Some q'
                /\ last (Queue.items q') = Some {| data := "eyJ"; timestamp := 40000 |}.
Proof.
  intros w.
  destruct (packaging_decides_enqueue (H:=bench) w (-1) 7%nat eq_refl) as (Hfail & _).
  destruct (packaging_decides_enqueue (H:=bench) w 42 7%nat eq_refl) as (_ & Hpush).
  split.
  - exact (proj2 (Hfail eq_refl)).
  - assert (Hwf : Queue.wf (Queue.mk 2 ([] : list DataPackage)))
      by (unfold Queue.wf; simpl; lia).
    assert (Hcap : (0 < Queue.uxLength (Queue.mk 2 ([] : list DataPackage)))%nat)
      by (simpl; lia).
    destruct (proj2 (Hpush eq_refl) (Queue.mk 2 []) eq_refl Hwf Hcap)
      as (q' & Hq' & _ & Hlast & _).
    exists q'. split; [exact Hq' | exact Hlast].
Defined.

Lemma recovery_resets_stall_timer_bench :
  let w := benchStarted (H:=bench1) 40000 in
  let w' := exec rotateP1MeterBaudRate w in
  lastReadTime (self w') = 40000
  /\ baudRateIx (self w') = 0
  /\ trace w' = trace w.
Proof.
  intros w w'.
  destruct (recovery_resets_stall_timer (H:=bench1) w) as (Ht & _ & Hone).
  assert (Hn : P1Meter_getNumConfigs (Collaborators:=bench1) <= 1) by (simpl; lia).
  destruct (Hone Hn) as (_ & Hix & _ & _ & Htr).
  split; [exact Ht|]. split; [exact Hix | exact Htr].
Defined.

Lemma frame_without_decoder_counts_as_failure_bench :
  exists w', handleFrame mbusFrame (benchStarted (H:=bench) 40000) = (tt, w')
             /\ Diag.failedFrames (debug w') = 1%N
             /\ queues w' = queues (benchStarted (H:=bench) 40000).
Proof.
  assert (Hh : getFrameTypeId mbusFrame <> FRAME_TYPE_HDLC) by discriminate.
  assert (Ha : getFrameTypeId mbusFrame <> FRAME_TYPE_ASCII) by discriminate.
  destruct (frame_without_decoder_counts_as_failure (H:=bench)
              (benchStarted 40000) mbusFrame Hh Ha)
    as (w' & Hw & Hfailed & _ & Hq & _).
  exists w'. split; [exact Hw|]. split; [exact Hfailed | exact Hq].
Defined.

Lemma decode_failure_updates_diagnostics_only_bench :
  let w := benchStarted (H:=bench) 40000 in
  let w' := exec (handleFrame shortHdlcFrame) w in
  queues w' = queues w /\ self w' = self w
  /\ Diag.failedFrames (debug w') = 1%N
  /\ Diag.faultyFrameData (debug w') = [x7e; xa0].
Proof.
  intros w w'.
  destruct (decode_failure_updates_diagnostics_only (H:=bench) w shortHdlcFrame eq_refl)
    as (Hq & Hs & _ & _ & _ & Hfailed & Hsnap & _).
  split; [exact Hq|]. split; [exact Hs|]. split; [exact Hfailed | exact Hsnap].
Defined.

Lemma decode_success_defers_rotation_bench :
  (let w' := exec (handleFrame hdlcFrame) (benchStarted (H:=bench) 100) in
   lastReadTime (self w') = 100 /\ exec stallCheck w' = clockRead w')
  /\ (let w' := exec (handleFrame hdlcFrame) (benchStarted (H:=bench) 0) in
      exec stallCheck w' = clockRead w').
Proof.
  split.
  - intros w'.
    destruct (decode_success_defers_rotation (H:=bench)
                (benchStarted 100) hdlcFrame 42 eq_refl) as (Hlast & Hquiet & _).
    assert (Hle : elapsed w' <= 30 * 1000) by (vm_compute; discriminate).
    split; [exact Hlast | exact (proj1 (Hquiet Hle))].
  - intros w'.
    destruct (decode_success_defers_rotation (H:=bench)
                (benchStarted 0) hdlcFrame 42 eq_refl) as (_ & _ & Hsame).
    assert (Heq : nextMillis w' = lastReadTime (self w')) by (vm_compute; reflexivity).
    exact (proj1 (Hsame Heq)).
Defined.

(** C8 as the spec words it fails: with the window set to fifty seconds and
    forty seconds on the clock since [lastReadTime], a check against the
    configured window would wait, and the stall check of the code rotates. *)
Lemma stall_window_not_configurable :
  let w := exec (setInterval 50000) (benchStarted (H:=bench) 40000) in
  readInterval (self w) = 50000
  /\ elapsed w = 40000
  /\ baudRateIx (self (exec stallCheck_configured w)) = 0
  /\ baudRateIx (self (exec stallCheck w)) = 1
  /\ exec stallCheck w <> exec stallCheck_configured w.
Proof.
  intros w. repeat split; try (vm_compute; reflexivity).
  intros Heq. apply (f_equal (fun v => baudRateIx (self v))) in Heq.
  vm_compute in Heq. discriminate Heq.
Qed.

Lemma stall_window_is_thirty_seconds_bench :
  (let w' := exec (setInterval 50000) (benchStarted (H:=bench) 40000) in
   exec stallCheck w' = rotated w')
  /\ (let w' := exec (setInterval 50) (benchStarted (H:=bench) 100) in
      exec stallCheck w' = clockRead w').
Proof.
  split.
  - intros w'.
    destruct (stall_window_is_thirty_seconds (H:=bench) (benchStarted 40000) 50000)
      as (_ & _ & _ & Hs & _).
    apply Hs. vm_compute. reflexivity.
  - intros w'.
    destruct (stall_window_is_thirty_seconds (H:=bench) (benchStarted 100) 50)
      as (_ & _ & _ & _ & Hq & _).
    apply Hq. vm_compute. discriminate.
Defined.

Lemma begin_stop_idempotent_bench :
  begin (Some 9%nat) (benchStarted (H:=bench) 40000) = (tt, benchStarted 40000)
  /\ stop (benchWorld (H:=bench) 40000 (Queue.mk 2 [])) = (tt, benchWorld 40000 (Queue.mk 2 [])).
Proof.
  split.
  - apply (proj1 (begin_stop_idempotent (H:=bench) (benchStarted 40000))).
    exists 1%nat. reflexivity.
  - apply (proj2 (begin_stop_idempotent (H:=bench) (benchWorld 40000 (Queue.mk 2 [])))).
    reflexivity.
Defined.

Lemma enqueue_without_queue_is_noop_bench :
  let w := benchWorld (H:=bench) 40000 (Queue.mk 2 []) in
  enqueueData (H:=bench) 42 w = (tt, w)
  /\ queues (exec (handleFrame hdlcFrame) w) = queues w.
Proof.
  intros w.
  destruct (enqueue_without_queue_is_noop (H:=bench) w eq_refl) as (Hnoop & Hframe).
  split; [exact (Hnoop 42)|].
  destruct (Hframe hdlcFrame 42 eq_refl) as (logs & _ & _ & Hq & _).
  exact Hq.
Defined.

(** ** Further properties: life cycle, frames end to end, the worker loop *)

Section Lifecycle.
Context `{Collaborators}.

Lemma fresh_task_fresh (ts : list TaskHandle_t) : fresh_task ts ∉ ts.
Proof.
  assert (Hmax : forall t, t ∈ ts -> (t <= foldr Nat.max 0 ts)%nat).
  { induction ts as [|a ts IH]; intros t Ht.
    - inversion Ht.
    - apply elem_of_cons in Ht as [->|Ht]; simpl; [lia|].
      specialize (IH t Ht). lia. }
  intros Hin. apply Hmax in Hin. unfold fresh_task in Hin. lia.
Qed.

Lemma begin_effects (w : World) (dataQueue : option QueueHandle_t) :
  taskHandle (self w) = None ->
  let w' := exec (begin dataQueue) w in
  self w' =
    with_taskHandle (Some (fresh_task (tasks w)))
      (with_shouldRun true (with_p1DataQueue dataQueue
         (with_p1Meter {| frameCallback := true;
                          activeConfig := Some (P1Meter_getConfig (baudRateIx (self w))) |}
            (self w))))
  /\ tasks w' = fresh_task (tasks w) :: tasks w
  /\ queues w' = queues w
  /\ debug w' = debug w
  /\ clock w' = clock w
  /\ clock_reads w' = clock_reads w.
Proof.
  intros Hnull w'. subst w'.
  unfold begin, exec, bind, gets. cbn [fst snd]. rewrite Hnull.
  unfold p1Meter_setFrameCallback, p1Meter_begin, xTaskCreatePinnedToCore,
    bind, gets, assign, emit, modify, ret, LOG, when.
  cbn [fst snd self with_self with_event with_p1Meter baudRateIx].
  destruct (P1Meter_begin_ok (P1Meter_getConfig (baudRateIx (self w))));
    cbn; repeat split.
Qed.

(** [begin] on an object that is not running starts the worker whatever
    [p1Meter.begin] answers: the callback is registered, the meter is set to
    the configuration at the current index (not reset to 0), the given queue
    handle (null or not) is stored, [shouldRun] is raised and the task is
    created under a handle no live task has.  The stall timer, the index and
    the queues are not touched, and the clock is not read. *)
Theorem begin_starts_worker (w : World) (dataQueue : option QueueHandle_t) :
  taskHandle (self w) = None ->
  let w' := exec (begin dataQueue) w in
  let created := fresh_task (tasks w) in
  taskHandle (self w') = Some created
  /\ (created ∉ tasks w)
  /\ tasks w' = created :: tasks w
  /\ shouldRun (self w') = true
  /\ p1DataQueue (self w') = dataQueue
  /\ p1Meter (self w') =
       {| frameCallback := true;
          activeConfig := Some (P1Meter_getConfig (baudRateIx (self w))) |}
  /\ baudRateIx (self w') = baudRateIx (self w)
  /\ lastReadTime (self w') = lastReadTime (self w)
  /\ readInterval (self w') = readInterval (self w)
  /\ lastDecodedData (self w') = lastDecodedData (self w)
  /\ queues w' = queues w
  /\ debug w' = debug w
  /\ clock_reads w' = clock_reads w.
Proof.
  intros Hnull w' created. subst w'.
  destruct (begin_effects w dataQueue Hnull) as (Hs & Hts & Hq & Hd & _ & Hr).
  rewrite Hs, Hts, Hq, Hd, Hr. cbn.
  split; [reflexivity|]. split; [apply fresh_task_fresh|]. repeat split.
Qed.

(** [stop] on a running object lowers [shouldRun], waits 100 ms, deletes the
    task and clears the handle.  It keeps the queue handle, the callback, the
    meter configuration, the index and the stall timer, and leaves the queues
    alone. *)
Theorem stop_halts_worker (w : World) (t : TaskHandle_t) :
  taskHandle (self w) = Some t ->
  let w' := exec stop w in
  taskHandle (self w') = None
  /\ shouldRun (self w') = false
  /\ (t ∉ tasks w')
  /\ (forall t', t' <> t -> t' ∈ tasks w' <-> t' ∈ tasks w)
  /\ p1DataQueue (self w') = p1DataQueue (self w)
  /\ p1Meter (self w') = p1Meter (self w)
  /\ baudRateIx (self w') = baudRateIx (self w)
  /\ lastReadTime (self w') = lastReadTime (self w)
  /\ queues w' = queues w
  /\ trace w' = VTaskDelete (Some t) :: VTaskDelay 100 :: trace w.
Proof.
  intros Hrun w'. subst w'.
  unfold stop, exec, bind, gets. cbn [fst snd]. rewrite Hrun.
  unfold assign, modify, vTaskDelay, emit, modify, vTaskDelete.
  cbn [fst snd self with_self with_event with_shouldRun taskHandle]. rewrite Hrun.
  cbn. repeat split; try reflexivity.
  - intros Hin. apply list_elem_of_filter in Hin as [Hne _]. congruence.
  - intros Hin. apply list_elem_of_filter in Hin as [_ Hin]. exact Hin.
  - intros Hin. apply list_elem_of_filter. split; assumption.
Qed.

Lemma begin_creates_task (w : World) (dataQueue : option QueueHandle_t) :
  taskHandle (self w) = None ->
  taskHandle (self (exec (begin dataQueue) w)) = Some (fresh_task (tasks w))
  /\ tasks (exec (begin dataQueue) w) = fresh_task (tasks w) :: tasks w.
Proof.
  intros Hnull. unfold begin, exec, bind, gets. cbn [fst snd]. rewrite Hnull.
  unfold p1Meter_setFrameCallback, p1Meter_begin, xTaskCreatePinnedToCore,
    bind, gets, assign, emit, modify, ret, LOG, when.
  cbn [fst snd self with_self with_event with_p1Meter baudRateIx].
  destruct (P1Meter_begin_ok (P1Meter_getConfig (baudRateIx (self w))));
    split; reflexivity.
Qed.

Lemma stop_deletes_task (w : World) (t : TaskHandle_t) :
  taskHandle (self w) = Some t ->
  tasks (exec stop w) = filter (fun t' => t' <> t) (tasks w).
Proof.
  intros Hrun. unfold stop, exec, bind, gets. cbn [fst snd]. rewrite Hrun.
  unfold assign, modify, vTaskDelay, emit, modify, vTaskDelete.
  cbn [fst snd self with_self with_event with_shouldRun taskHandle]. rewrite Hrun.
  reflexivity.
Qed.

Lemma filter_out_fresh (c : TaskHandle_t) (l : list TaskHandle_t) :
  c ∉ l -> filter (fun t' => t' <> c) l = l.
Proof.
  induction l as [|a ts IH]; intros Hfresh; [reflexivity|].
  rewrite filter_cons_True.
  - f_equal. apply IH. intros Hin. apply Hfresh. apply elem_of_cons. right. exact Hin.
  - intros ->. apply Hfresh. apply elem_of_cons. left. reflexivity.
Qed.

(** Whatever the state, the object is not running after [stop], and a second
    [stop] changes nothing.  A worker started by [begin] and stopped by
    [stop] leaves the live tasks as they were before [begin], while the queue
    handle given to [begin] stays stored. *)
Theorem stop_composes (w : World) :
  taskHandle (self (exec stop w)) = None
  /\ exec stop (exec stop w) = exec stop w
  /\ (forall dataQueue,
        taskHandle (self w) = None ->
        let w' := exec stop (exec (begin dataQueue) w) in
        tasks w' = tasks w
        /\ taskHandle (self w') = None
        /\ shouldRun (self w') = false
        /\ p1DataQueue (self w') = dataQueue
        /\ frameCallback (p1Meter (self w')) = true).
Proof.
  assert (Hnone : forall v, taskHandle (self v) = None -> exec stop v = v).
  { intros v Hv. unfold stop, exec, bind, gets. cbn. rewrite Hv. reflexivity. }
  assert (Hafter : forall v, taskHandle (self (exec stop v)) = None).
  { intros v. destruct (taskHandle (self v)) as [t|] eqn:Ht.
    - unfold stop, exec, bind, gets. cbn [fst snd]. rewrite Ht.
      unfold assign, modify, vTaskDelay, emit, modify, vTaskDelete.
      cbn [fst snd self with_self with_event with_shouldRun taskHandle]. rewrite Ht.
      reflexivity.
    - rewrite (Hnone v Ht). exact Ht. }
  split; [apply Hafter|]. split; [apply Hnone, Hafter|].
  intros dataQueue Hnull w'. subst w'.
  split; [|split; [apply Hafter|]].
  - destruct (begin_creates_task w dataQueue Hnull) as (Hh & Hts).
    rewrite (stop_deletes_task _ _ Hh), Hts.
    rewrite filter_cons_False by (intros Hne; apply Hne; reflexivity).
    apply filter_out_fresh, fresh_task_fresh.
  - unfold begin, stop, exec, bind, gets. cbn [fst snd]. rewrite Hnull.
    unfold p1Meter_setFrameCallback, p1Meter_begin, xTaskCreatePinnedToCore,
      vTaskDelay, vTaskDelete, bind, gets, assign, emit, modify, ret, LOG, when.
    cbn [fst snd self with_self with_event with_p1Meter baudRateIx].
    destruct (P1Meter_begin_ok (P1Meter_getConfig (baudRateIx (self w)))); cbn;
      repeat split.
Qed.

(** *** Frames end to end *)

Lemma isLog_packaging (e : Event) : isLog e -> isLogOrPackaging e.
Proof. destruct e; simpl; intros Hx; first [exact Hx | exact I]. Qed.

Lemma store_kept_refl (own : option QueueHandle_t)
      (qs : gmap QueueHandle_t (Queue.t DataPackage)) :
  (forall h q, qs !! h = Some q -> Queue.wf q) -> store_kept own qs qs.
Proof. intros Hwf. split; [exact Hwf|]. split; reflexivity. Qed.


Lemma enqueuePackage_store (h : QueueHandle_t) (package : DataPackage) (w : World) :
  store_wf w ->
  store_kept (Some h) (queues w) (queues (exec (enqueuePackage h package) w)).
Proof.
  intros Hwf. destruct (queues w !! h) as [q|] eqn:Hq.
  - rewrite (enqueuePackage_queues w h q package Hq (Hwf h q Hq)).
    pose proof (Hwf h q Hq) as Hq_wf. unfold Queue.wf in Hq_wf.
    split; [|split].
    + intros h0 q0. rewrite lookup_insert. case_decide as Hh.
      * intros [= <-]. unfold Queue.wf. simpl.
        rewrite length_drop, length_app. simpl. lia.
      * apply Hwf.
    + intros h0 Hne. rewrite lookup_insert_ne by congruence. reflexivity.
    + intros h0. rewrite lookup_insert. case_decide as Hh.
      * subst h0. rewrite Hq. reflexivity.
      * reflexivity.
  - assert (Hsame : queues (exec (enqueuePackage h package) w) = queues w).
    { unfold enqueuePackage, exec, bind, uxQueueSpacesAvailable, when,
        xQueueReceive, xQueueSendToBack, LOG, emit, modify, ret.
      rewrite Hq. simpl. rewrite Hq. simpl. rewrite Hq. reflexivity. }
    rewrite Hsame. apply store_kept_refl. exact Hwf.
Qed.

Lemma enqueuePackage_trace (h : QueueHandle_t) (package : DataPackage) (w : World) :
  exists logs, Forall isLog logs /\
    trace (exec (enqueuePackage h package) w) = logs ++ trace w.
Proof.
  unfold enqueuePackage, exec, bind, uxQueueSpacesAvailable, when,
    xQueueReceive, xQueueSendToBack, LOG, emit, modify, ret.
  destruct (queues w !! h) as [q|] eqn:Hq; cbn [from_option fst snd].
  - destruct (Nat.eqb (Queue.uxQueueSpacesAvailable q) 0).
    + rewrite Hq. destruct (Queue.xQueueReceive q) as [r q1].
      cbn [queues with_queues with_event]. rewrite lookup_insert_eq.
      destruct (Queue.xQueueSendToBack q1 package) as [[] q2];
        (eexists [_; _]; split; [|reflexivity]; repeat constructor).
    + rewrite Hq.
      destruct (Queue.xQueueSendToBack q package) as [[] q2];
        (eexists [_]; split; [|reflexivity]; repeat constructor).
  - simpl. rewrite Hq. simpl. rewrite Hq.
    eexists [_; _]. split; [|reflexivity]. repeat constructor.
Qed.

Lemma enqueueData_trace (p1data : P1Data) (w : World) :
  let w' := exec (enqueueData p1data) w in
  (exists events, Forall isLogOrPackaging events /\ trace w' = events ++ trace w)
  /\ (clock_reads w <= clock_reads w' <= S (clock_reads w))%nat.
Proof.
  intros w'. subst w'.
  destruct (p1DataQueue (self w)) as [h|] eqn:Hh.
  - rewrite (enqueueData_with_queue w p1data h Hh). cbn zeta.
    destruct (fst (createP1JWTPayload p1data)).
    + split; [|simpl; lia].
      exists [Log LOG_TE "Failed to create JWT"; CreateP1JWTPayload p1data].
      split; [repeat constructor | reflexivity].
    + set (v := clockRead (with_event (CreateP1JWTPayload p1data) w)).
      set (package := {| data := _; timestamp := _ |}).
      destruct (enqueuePackage_trace h package v) as (logs & Hlogs & Htr).
      destruct (enqueuePackage_frame h package v) as (_ & _ & _ & _ & Hr).
      split; [|rewrite Hr; simpl; lia].
      exists (logs ++ [CreateP1JWTPayload p1data]). split.
      * apply Forall_app. split; [|repeat constructor].
        eapply Forall_impl; [exact Hlogs | exact isLog_packaging].
      * rewrite Htr, <- app_assoc. reflexivity.
  - assert (Hnoop : exec (enqueueData p1data) w = w).
    { unfold enqueueData, exec, bind, gets. cbn. rewrite Hh. reflexivity. }
    rewrite Hnoop. split; [|lia].
    exists []. split; [constructor | reflexivity].
Qed.

Lemma enqueueData_store (p1data : P1Data) (w : World) :
  store_wf w ->
  store_kept (p1DataQueue (self w)) (queues w) (queues (exec (enqueueData p1data) w)).
Proof.
  intros Hwf.
  destruct (p1DataQueue (self w)) as [h|] eqn:Hh.
  - rewrite (enqueueData_with_queue w p1data h Hh). cbn zeta.
    destruct (fst (createP1JWTPayload p1data)).
    + apply store_kept_refl. exact Hwf.
    + exact (enqueuePackage_store h _
               (clockRead (with_event (CreateP1JWTPayload p1data) w)) Hwf).
  - assert (Hnoop : exec (enqueueData p1data) w = w).
    { unfold enqueueData, exec, bind, gets. cbn. rewrite Hh. reflexivity. }
    rewrite Hnoop. apply store_kept_refl. exact Hwf.
Qed.

(** [enqueueData] and the store of queues.  With every queue within its
    capacity before, every queue is within its capacity after; only the
    queue under [p1DataQueue] can have changed; no queue was created,
    deleted or resized.  The events added are log lines and at most the
    packaging call, and the clock is read at most once. *)
Theorem enqueueData_keeps_store (w : World) (p1data : P1Data) :
  store_wf w ->
  let w' := exec (enqueueData p1data) w in
  store_kept (p1DataQueue (self w)) (queues w) (queues w')
  /\ (exists events, Forall isLogOrPackaging events /\ trace w' = events ++ trace w)
  /\ (clock_reads w <= clock_reads w' <= S (clock_reads w))%nat.
Proof.
  intros Hwf w'. subst w'.
  destruct (enqueueData_trace p1data w) as (Htrace & Hreads).
  split; [apply enqueueData_store; exact Hwf|]. split; [exact Htrace | exact Hreads].
Qed.

(** The world in which [handleFrame] calls [enqueueData] for a frame that
    decoded. *)
Lemma handleFrame_decoded_world (frame : IFrameData) (p1data : P1Data) (w : World) :
  fst (decodeFrame frame w) = Some p1data ->
  exists v,
    exec (handleFrame frame) w =
      with_self (with_lastDecodedData (Some (P1Data_setTimeStamp p1data)))
        (exec (enqueueData (P1Data_setTimeStamp p1data)) v)
    /\ queues v = queues w
    /\ self v = with_lastReadTime (nextMillis w) (self w)
    /\ debug v = Diag.addFrame (debug w)
    /\ tasks v = tasks w
    /\ clock v = clock w
    /\ clock_reads v = S (clock_reads w)
    /\ exists logs, Forall isLog logs /\ trace v = logs ++ trace w.
Proof.
  intros Hsome. destruct (handleFrame_decoded frame p1data w Hsome) as (logs & Hlogs & Hw).
  destruct (trace_events logs w) as (Ht & Hs & Hd & Hq & Hk & Hc & Hr).
  eexists. split; [exact Hw|]. cbn. rewrite Hq, Hs, Hd, Hk, Hc, Hr, Ht.
  repeat (split; [reflexivity|]).
  exists (Log LOG_TI "Frame decoded %s" :: logs).
  split; [constructor; [exact I | exact Hlogs] | reflexivity].
Qed.



(** A reading that decodes but whose packaging is refused (a non-zero return
    of [createP1JWTPayload], as [enqueueData] reads it) is lost to the queue
    only: it still counts as a good frame, still resets the stall timer and
    is still kept as [lastDecodedData], stamped.  The reading handed to the
    packaging is the stamped one. *)
Theorem unpackaged_reading_still_counts (w : World) (frame : IFrameData)
        (p1data : P1Data) (h : QueueHandle_t) :
  fst (decodeFrame frame w) = Some p1data ->
  p1DataQueue (self w) = Some h ->
  fst (createP1JWTPayload (P1Data_setTimeStamp p1data)) = true ->
  let w' := exec (handleFrame frame) w in
  queues w' = queues w
  /\ lastReadTime (self w') = nextMillis w
  /\ lastDecodedData (self w') = Some (P1Data_setTimeStamp p1data)
  /\ Diag.frames (debug w') = (Diag.frames (debug w) + 1)%N
  /\ Diag.failedFrames (debug w') = Diag.failedFrames (debug w)
  /\ Diag.faultyFrameData (debug w') = Diag.faultyFrameData (debug w)
  /\ clock_reads w' = S (clock_reads w)
  /\ exists logs,
       trace w' = Log LOG_TE "Failed to create JWT"
                  :: CreateP1JWTPayload (P1Data_setTimeStamp p1data)
                  :: logs ++ trace w.
Proof.
  intros Hdec Hh Hfail w'. subst w'.
  destruct (handleFrame_decoded_world frame p1data w Hdec)
    as (v & Hw & Hq & Hs & Hd & Hk & Hc & Hr & logs & Hlogs & Ht).
  assert (Hhv : p1DataQueue (self v) = Some h) by (rewrite Hs; exact Hh).
  rewrite Hw, (enqueueData_with_queue v _ h Hhv). cbn zeta. rewrite Hfail.
  cbn. rewrite Hq, Hs, Hd, Hr, Ht.
  repeat (split; [reflexivity|]). exists logs. reflexivity.
Qed.

(** A reading that decodes and is packaged, with a live queue of capacity at
    least one under the handle: the package at the tail of the queue carries
    the payload of the stamped reading and the second clock value read while
    the frame is handled; the stall timer holds the first.  No other queue
    changes, and the queue keeps its capacity. *)
Theorem decoded_reading_reaches_queue (w : World) (frame : IFrameData)
        (p1data : P1Data) (h : QueueHandle_t) (q : Queue.t DataPackage) :
  fst (decodeFrame frame w) = Some p1data ->
  p1DataQueue (self w) = Some h ->
  fst (createP1JWTPayload (P1Data_setTimeStamp p1data)) = false ->
  queues w !! h = Some q -> Queue.wf q -> (0 < Queue.uxLength q)%nat ->
  let w' := exec (handleFrame frame) w in
  let package := {| data := snd (createP1JWTPayload (P1Data_setTimeStamp p1data));
                    timestamp := clock w (S (clock_reads w)) mod 2 ^ 32 |} in
  (exists q', queues w' !! h = Some q'
              /\ Queue.uxLength q' = Queue.uxLength q
              /\ last (Queue.items q') = Some package
              /\ Queue.items q' =
                   drop (length (Queue.items q) + 1 - Queue.uxLength q)
                        (Queue.items q ++ [package]))
  /\ (forall h', h' <> h -> queues w' !! h' = queues w !! h')
  /\ lastReadTime (self w') = clock w (clock_reads w) mod 2 ^ 32
  /\ lastDecodedData (self w') = Some (P1Data_setTimeStamp p1data)
  /\ Diag.frames (debug w') = (Diag.frames (debug w) + 1)%N
  /\ clock_reads w' = S (S (clock_reads w)).
Proof.
  intros Hdec Hh Hok Hq Hwf Hcap w' package. subst w'.
  destruct (handleFrame_decoded_world frame p1data w Hdec)
    as (v & Hw & Hqv & Hs & Hd & Hk & Hc & Hr & logs & Hlogs & Ht).
  assert (Hhv : p1DataQueue (self v) = Some h) by (rewrite Hs; exact Hh).
  rewrite Hw, (enqueueData_with_queue v _ h Hhv). cbn zeta. rewrite Hok.
  set (u := clockRead (with_event (CreateP1JWTPayload (P1Data_setTimeStamp p1data)) v)).
  assert (Hpkg : {| data := snd (createP1JWTPayload (P1Data_setTimeStamp p1data));
                    timestamp := nextMillis v |} = package).
  { subst package. unfold nextMillis. rewrite Hc, Hr. reflexivity. }
  rewrite Hpkg.
  assert (Hqu : queues u !! h = Some q) by (subst u; cbn; rewrite Hqv; exact Hq).
  pose proof (enqueuePackage_queues u h q package Hqu Hwf) as Hstore.
  destruct (enqueuePackage_frame h package u) as (Hs' & Hd' & _ & _ & Hr').
  cbn [queues self debug clock_reads with_self with_lastDecodedData
       lastReadTime lastDecodedData].
  rewrite Hstore, Hs', Hd', Hr'. subst u. cbn. rewrite Hs, Hd, Hr, Hqv.
  split.
  - rewrite lookup_insert_eq. eexists. split; [reflexivity|]. simpl.
    split; [reflexivity|]. split; [|reflexivity].
    unfold Queue.wf in Hwf.
    destruct (decide (length (Queue.items q) < Queue.uxLength q)%nat) as [Hroom|Hfull].
    + rewrite push_room_items by exact Hroom. apply last_snoc.
    + rewrite push_full_items by lia.
      destruct (Queue.items q) as [|x rest] eqn:E; simpl in *; [lia|]. apply last_snoc.
  - split; [|repeat split].
    intros h' Hne. rewrite lookup_insert_ne by congruence. reflexivity.
Qed.

(** *** The recovery supervisor over time *)

(** With [count > 1] configurations and the index at a position of the
    table, [k] recovery actions in a row leave the index at
    [(index + k) mod count]: [count] of them bring it back, and every
    position is reached within [count - 1] of them. *)
Theorem rotations_cycle_through_table (w : World) :
  1 < P1Meter_getNumConfigs ->
  0 <= baudRateIx (self w) < P1Meter_getNumConfigs ->
  let count := P1Meter_getNumConfigs in
  (forall k, baudRateIx (self (rotations k w)) =
               (baudRateIx (self w) + Z.of_nat k) mod count)
  /\ baudRateIx (self (rotations (Z.to_nat count) w)) = baudRateIx (self w)
  /\ (forall j, 0 <= j < count ->
        exists k, (k < Z.to_nat count)%nat /\ baudRateIx (self (rotations k w)) = j).
Proof.
  intros Hn Hix count.
  assert (Hk : forall k, baudRateIx (self (rotations k w)) =
                 (baudRateIx (self w) + Z.of_nat k) mod count).
  { induction k as [|k IH].
    - simpl. rewrite Z.add_0_r, Z.mod_small by (subst count; lia). reflexivity.
    - unfold rotations in *. rewrite Nat.iter_succ.
      destruct (rotate_several (Nat.iter k (exec rotateP1MeterBaudRate) w) Hn) as (Hi & _).
      rewrite Hi, IH. fold count.
      pose proof (Z.mod_pos_bound (baudRateIx (self w) + Z.of_nat k) count
                    ltac:(subst count; lia)) as Hb.
      rewrite Z.rem_mod_nonneg by lia.
      rewrite Z.add_mod_idemp_l by lia. f_equal. lia. }
  split; [exact Hk|]. split.
  - rewrite Hk, Z2Nat.id by (subst count; lia).
    rewrite <- (Z.mul_1_l count) at 1. rewrite Z.mod_add by lia.
    apply Z.mod_small. exact Hix.
  - intros j Hj. exists (Z.to_nat ((j - baudRateIx (self w)) mod count)).
    pose proof (Z.mod_pos_bound (j - baudRateIx (self w)) count ltac:(subst count; lia)) as Hb.
    split; [apply Z2Nat.inj_lt; subst count; lia|].
    rewrite Hk, Z2Nat.id by lia.
    rewrite Z.add_mod_idemp_r by lia.
    replace (baudRateIx (self w) + (j - baudRateIx (self w))) with j by lia.
    apply Z.mod_small. exact Hj.
Qed.

(** The stall check measures real time across the wrap of [millis()]: when
    the stall timer holds the 32-bit value of a clock reading [then] and the
    clock now reads less than 2^32 ms later, the elapsed time the check uses
    is the true difference, so it rotates exactly when more than 30000 ms
    have passed, also when the counter has wrapped in between. *)
Theorem stall_check_survives_wrap (w : World) (past : Z) :
  lastReadTime (self w) = past mod 2 ^ 32 ->
  0 <= clock w (clock_reads w) - past < 2 ^ 32 ->
  let passed := clock w (clock_reads w) - past in
  elapsed w = passed
  /\ (30 * 1000 < passed -> exec stallCheck w = rotated w)
  /\ (passed <= 30 * 1000 -> exec stallCheck w = clockRead w).
Proof.
  intros Hlast Hrange passed.
  assert (He : elapsed w = passed).
  { unfold elapsed, nextMillis. rewrite Hlast, <- Zminus_mod.
    apply Z.mod_small. exact Hrange. }
  split; [exact He|]. split; intros Hp.
  - apply stallCheck_stalled. rewrite He. exact Hp.
  - apply stallCheck_quiet. rewrite He. exact Hp.
Qed.

(** Recovery is rate limited.  After a stall check that ran the recovery
    action, whatever [p1Meter.begin] answered, the stall timer holds the
    clock value read at the end of that action; the next stall check
    measures from there and, with no more than 30000 ms on the clock since,
    leaves the index and the meter alone. *)
Theorem recovery_is_rate_limited (w : World) :
  30 * 1000 < elapsed w ->
  let w1 := exec stallCheck w in
  let r := clock_reads w in
  clock_reads w1 = S (S r)
  /\ lastReadTime (self w1) = clock w (S r) mod 2 ^ 32
  /\ elapsed w1 = (clock w (S (S r)) mod 2 ^ 32 - clock w (S r) mod 2 ^ 32) mod 2 ^ 32
  /\ (elapsed w1 <= 30 * 1000 ->
      exec stallCheck w1 = clockRead w1
      /\ baudRateIx (self (exec stallCheck w1)) = baudRateIx (self w1)
      /\ p1Meter (self (exec stallCheck w1)) = p1Meter (self w1)).
Proof.
  intros Hstall w1 r. subst w1.
  rewrite (stallCheck_stalled w Hstall). unfold rotated.
  assert (Hfacts : lastReadTime (self (exec rotateP1MeterBaudRate (clockRead w)))
                     = clock w (S r) mod 2 ^ 32
                   /\ clock_reads (exec rotateP1MeterBaudRate (clockRead w)) = S (S r)
                   /\ clock (exec rotateP1MeterBaudRate (clockRead w)) = clock w).
  { destruct (Z.le_gt_cases P1Meter_getNumConfigs 1) as [Hone|Hmany].
    - rewrite (rotate_single _ Hone). repeat split.
    - destruct (rotate_several (clockRead w) ltac:(lia)) as (_ & _ & Ht & Hc & Hk & _).
      rewrite Ht, Hc, Hk. repeat split. }
  destruct Hfacts as (Ht & Hc & Hk).
  split; [exact Hc|]. split; [exact Ht|].
  split; [unfold elapsed, nextMillis; rewrite Ht, Hc, Hk; reflexivity|].
  intros Hquiet. rewrite (stallCheck_quiet _ Hquiet). repeat split.
Qed.



(** *** The worker loop *)











End Lifecycle.

(** ** The further statements at work on the bench installation *)

Lemma begin_starts_worker_bench :
  let w' := benchStarted (H:=bench) 40000 in
  taskHandle (self w') = Some 1%nat
  /\ shouldRun (self w') = true
  /\ p1DataQueue (self w') = Some 7%nat
  /\ activeConfig (p1Meter (self w')) = Some 115200.
Proof.
  intros w'.
  destruct (begin_starts_worker (H:=bench) (benchWorld 40000 (Queue.mk 2 []))
              (Some 7%nat) eq_refl)
    as (Hh & _ & _ & Hrun & Hq & Hm & _).
  split; [exact Hh|]. split; [exact Hrun|]. split; [exact Hq|].
  exact (f_equal activeConfig Hm).
Defined.

Lemma stop_halts_worker_bench :
  let w' := exec stop (benchStarted (H:=bench) 40000) in
  taskHandle (self w') = None
  /\ shouldRun (self w') = false
  /\ p1DataQueue (self w') = Some 7%nat.
Proof.
  intros w'.
  destruct (stop_halts_worker (H:=bench) (benchStarted 40000) 1%nat eq_refl)
    as (Hh & Hrun & _ & _ & Hq & _).
  split; [exact Hh|]. split; [exact Hrun | exact Hq].
Defined.

Lemma stop_composes_bench :
  let w := benchWorld (H:=bench) 40000 (Queue.mk 2 []) in
  let w' := exec stop (exec (begin (Some 7%nat)) w) in
  tasks w' = [] /\ p1DataQueue (self w') = Some 7%nat.
Proof.
  intros w w'.
  destruct (stop_composes (H:=bench) w) as (_ & _ & Hround).
  destruct (Hround (Some 7%nat) eq_refl) as (Hts & _ & _ & Hq & _).
  split; [exact Hts | exact Hq].
Defined.

Lemma unpackaged_reading_still_counts_bench :
  let w := benchStarted (H:=benchRefusing) 40000 in
  let w' := exec (handleFrame hdlcFrame) w in
  queues w' = queues w
  /\ lastReadTime (self w') = 40000
  /\ lastDecodedData (self w') = Some 43
  /\ Diag.frames (debug w') = 1%N.
Proof.
  intros w w'.
  destruct (unpackaged_reading_still_counts (H:=benchRefusing) w hdlcFrame 42 7%nat
              eq_refl eq_refl eq_refl)
    as (Hq & Ht & Hd & Hf & _).
  split; [exact Hq|]. split; [exact Ht|]. split; [exact Hd | exact Hf].
Defined.

Lemma decoded_reading_reaches_queue_bench :
  let w := benchStarted (H:=bench) 40000 in
  let w' := exec (handleFrame hdlcFrame) w in
  (exists q', queues w' !! 7%nat = Some q'
              /\ last (Queue.items q') = Some {| data := "eyJ"; timestamp := 80000 |})
  /\ lastReadTime (self w') = 40000.
Proof.
  intros w w'.
  assert (Hwf : Queue.wf (Queue.mk 2 ([] : list DataPackage)))
    by (unfold Queue.wf; simpl; lia).
  assert (Hcap : (0 < Queue.uxLength (Queue.mk 2 ([] : list DataPackage)))%nat)
    by (simpl; lia).
  destruct (decoded_reading_reaches_queue (H:=bench) w hdlcFrame 42 7%nat (Queue.mk 2 [])
              eq_refl eq_refl eq_refl eq_refl Hwf Hcap)
    as ((q' & Hq' & _ & Hlast & _) & _ & Ht & _).
  split; [exists q'; split; [exact Hq' | exact Hlast] | exact Ht].
Defined.

Lemma benchStarted_store_wf : store_wf (benchStarted (H:=bench) 40000).
Proof.
  intros h q Hq.
  change (queues (benchStarted (H:=bench) 40000))
    with ({[ 7%nat := Queue.mk 2 ([] : list DataPackage) ]} : gmap nat _) in Hq.
  apply lookup_singleton_Some in Hq as [_ <-]. unfold Queue.wf. simpl. lia.
Defined.

Lemma enqueueData_keeps_store_bench :
  let w := benchStarted (H:=bench) 40000 in
  let w' := exec (enqueueData (H:=bench) 42) w in
  store_kept (Some 7%nat) (queues w) (queues w')
  /\ (clock_reads w' <= 1)%nat.
Proof.
  intros w w'.
  destruct (enqueueData_keeps_store (H:=bench) w 42 benchStarted_store_wf)
    as (Hstore & _ & _ & Hreads).
  split; [exact Hstore | exact Hreads].
Defined.



Lemma rotations_cycle_through_table_bench :
  let w := benchStarted (H:=bench) 40000 in
  baudRateIx (self (rotations 2 w)) = 2
  /\ baudRateIx (self (rotations 3 w)) = 0
  /\ exists k, (k < 3)%nat /\ baudRateIx (self (rotations k w)) = 1.
Proof.
  intros w.
  assert (Hn : 1 < P1Meter_getNumConfigs (Collaborators:=bench)) by (simpl; lia).
  assert (Hix : 0 <= baudRateIx (self w) < P1Meter_getNumConfigs (Collaborators:=bench))
    by (vm_compute; split; discriminate || reflexivity).
  destruct (rotations_cycle_through_table (H:=bench) w Hn Hix) as (Hk & Hback & Hall).
  split; [exact (Hk 2%nat)|]. split; [exact Hback|].
  apply (Hall 1). simpl. lia.
Defined.

Lemma stall_check_survives_wrap_bench :
  elapsed (wrapWorld (H:=bench)) = 1500
  /\ exec stallCheck (wrapWorld (H:=bench)) = clockRead wrapWorld.
Proof.
  assert (Hrange : 0 <= clock (wrapWorld (H:=bench)) (clock_reads (wrapWorld (H:=bench)))
                        - (2 ^ 32 - 1000) < 2 ^ 32)
    by (vm_compute; split; discriminate || reflexivity).
  destruct (stall_check_survives_wrap (H:=bench) wrapWorld (2 ^ 32 - 1000) eq_refl Hrange)
    as (He & _ & Hquiet).
  split; [exact He|]. apply Hquiet. vm_compute. discriminate.
Defined.

Lemma recovery_is_rate_limited_bench :
  let w := clockRead (benchStarted (H:=benchRefusing) 20000) in
  let w1 := exec stallCheck w in
  lastReadTime (self w1) = 60000
  /\ baudRateIx (self w1) = 1
  /\ exec stallCheck w1 = clockRead w1
  /\ baudRateIx (self (exec stallCheck w1)) = 1.
Proof.
  intros w w1.
  assert (Hs : 30 * 1000 < elapsed w) by (vm_compute; reflexivity).
  destruct (recovery_is_rate_limited (H:=benchRefusing) w Hs)
    as (_ & Ht & _ & Hquiet).
  assert (Hq : elapsed w1 <= 30 * 1000) by (vm_compute; discriminate).
  destruct (Hquiet Hq) as (Hsame & Hix & _).
  split; [exact Ht|]. split; [vm_compute; reflexivity|].
  split; [exact Hsame | exact Hix].
Defined.

